(** * Inventory application: token issuing (backend) and the refresh
      interceptor of the HTTP client (frontend)

    A shallow embedding of [backend/src/auth/auth.service.ts] and of
    [frontend/src/stores/authStore.ts] together with
    [frontend/src/services/api.ts], and the properties of the
    authentication flow proved about them. *)

From stdpp Require Import base option list strings gmap.
From Stdlib Require Import ZArith Lia.

Open Scope Z_scope.
Open Scope string_scope.
Open Scope list_scope.

(** Values held by the properties of a plain JS object, as they travel
    in the JSON bodies between the two halves of the application. *)
Inductive JsVal :=
| JNum (n : Z)
| JStr (s : string)
| JDate (t : Z).

(** A JS string is falsy exactly when it is empty; [null] and
    [undefined] are [None]. *)
Definition truthy (s : option string) : bool :=
  match s with
  | Some s => negb (String.eqb s "")
  | None => false
  end.

(** ** Backend: [AuthService] *)
Module Backend.

(** [users/user.entity.ts]: the persisted row. [createdAt] is a timestamp. *)
Record User := {
  id : Z;
  email : string;
  password : string;
  createdAt : Z;
}.

(** The own enumerable properties of a [User] entity, as object
    spreading and rest destructuring see them. *)
Definition properties (u : User) : gmap string JsVal :=
  <["id" := JNum (id u)]>
  (<["email" := JStr (email u)]>
  (<["password" := JStr (password u)]>
  (<["createdAt" := JDate (createdAt u)]> ∅))).

(** [{ sub: user.id, email: user.email }] *)
Record Payload := {
  sub : Z;
  payload_email : string;
}.

(** The second argument of [jwtService.sign]. [process.env.X] is
    [undefined] when the variable is not set. *)
Record SignOptions := {
  secret : option string;
  expiresIn : string;
}.

(** [@nestjs/jwt]: signing with the module defaults ([None]) or with
    explicit options; verification fails ([None]) on a bad signature
    or an expired token. *)
Class JwtService := {
  sign : Payload → option SignOptions → string;
  verifyAsync : string → option string → option Payload;
}.

(** [bcrypt.hash(password, rounds)] and [bcrypt.compare]. *)
Class Bcrypt := {
  hash : string → nat → string;
  compare : string → string → bool;
}.

(** [users/users.service.ts] is the persistence collaborator; the
    service only needs these three operations of it over some store
    [Db]. *)
Class UsersService (Db : Type) := {
  findByEmail : string → Db → option User;
  findById : Z → Db → option User;
  create : string → string → Db → User * Db;
}.

(** [process.env] *)
Record Env := {
  JWT_REFRESH_SECRET : option string;
}.

(** The options object handed to [res.cookie] / [res.clearCookie];
    a field the call does not give is [None]. *)
Record CookieOptions := {
  httpOnly : option bool;
  secure : option bool;
  sameSite : option string;
  path : option string;
}.

Inductive SetCookie :=
| Cookie (name value : string) (options : CookieOptions)
| ClearCookie (name : string) (options : CookieOptions).

(** The express [Response]: the cookie headers queued so far. *)
Record Res := {
  set_cookies : list SetCookie;
}.

Definition cookie (name value : string) (options : CookieOptions) (res : Res) : Res :=
  {| set_cookies := set_cookies res ++ [Cookie name value options] |}.

Definition clearCookie (name : string) (options : CookieOptions) (res : Res) : Res :=
  {| set_cookies := set_cookies res ++ [ClearCookie name options] |}.

(** The express [Request]: [req.cookies?.refresh_token]. *)
Record Req := {
  cookies : option (gmap string string);
}.

Inductive HttpException :=
| ConflictException (message : string)
| UnauthorizedException (message : string).

Record RegisterDto := {
  register_email : string;
  register_password : string;
}.

Record LoginDto := {
  login_email : string;
  login_password : string;
}.

(** [{ access_token, user }] *)
Record AuthResult := {
  access_token : string;
  user : gmap string JsVal;
}.

Section Service.
Context {Db : Type} `{!UsersService Db, !JwtService, !Bcrypt}.
Variable env : Env.

(** The options both [register] and [login] pass for the refresh cookie. *)
Definition refresh_cookie_options : CookieOptions :=
  {| httpOnly := Some true;
     secure := Some false;
     sameSite := Some "lax";
     path := Some "/" |}.

Definition refresh_sign_options : SignOptions :=
  {| secret := JWT_REFRESH_SECRET env; expiresIn := "7d" |}.

(** [AuthService.register] *)
Definition register (registerDto : RegisterDto) (res : Res) (db : Db)
  : (HttpException + AuthResult) * Res * Db :=
  let email := register_email registerDto in
  let password := register_password registerDto in
  match findByEmail email db with
  | Some _ => (inl (ConflictException "Email already exists"), res, db)
  | None =>
    let hashedPassword := hash password 10 in
    let '(user, db) := create email hashedPassword db in
    let payload := {| sub := id user; payload_email := Backend.email user |} in
    let access_token := sign payload None in
    let refresh_token := sign payload (Some refresh_sign_options) in
    let res := cookie "refresh_token" refresh_token refresh_cookie_options res in
    let userWithoutPassword := delete "password" (properties user) in
    (inr {| access_token := access_token; user := userWithoutPassword |}, res, db)
  end.

(** [AuthService.login] *)
Definition login (loginDto : LoginDto) (res : Res) (db : Db)
  : (HttpException + AuthResult) * Res :=
  let email := login_email loginDto in
  let password := login_password loginDto in
  match findByEmail email db with
  | None => (inl (UnauthorizedException "Invalid credentials"), res)
  | Some user =>
    if negb (compare password (Backend.password user))
    then (inl (UnauthorizedException "Invalid credentials"), res)
    else
      let payload := {| sub := id user; payload_email := Backend.email user |} in
      let access_token := sign payload None in
      let refresh_token := sign payload (Some refresh_sign_options) in
      let res := cookie "refresh_token" refresh_token refresh_cookie_options res in
      let userWithoutPassword := delete "password" (properties user) in
      (inr {| access_token := access_token; user := userWithoutPassword |}, res)
  end.

(** [AuthService.refresh]. Everything thrown inside the [try],
    [User not found] included, is replaced by [Invalid refresh token]. *)
Definition refresh (req : Req) (db : Db) : HttpException + AuthResult :=
  let refreshToken := cookies req ≫= (λ c, c !! "refresh_token") in
  if negb (truthy refreshToken)
  then inl (UnauthorizedException "No refresh token provided")
  else
    let attempt : option AuthResult :=
      payload ← verifyAsync (default "" refreshToken) (JWT_REFRESH_SECRET env);
      user ← findById (sub payload) db;
      let newAccessToken :=
        sign {| sub := id user; payload_email := Backend.email user |} None in
      Some {| access_token := newAccessToken;
              user := <["id" := JNum (id user)]>
                      (<["email" := JStr (Backend.email user)]> ∅) |} in
    match attempt with
    | Some result => inr result
    | None => inl (UnauthorizedException "Invalid refresh token")
    end.

(** [AuthService.logout] *)
Definition logout (res : Res) : string * Res :=
  let res := clearCookie "refresh_token"
               {| httpOnly := Some true; secure := None;
                  sameSite := None; path := Some "/" |} res in
  ("Logged out successfully", res).

End Service.
End Backend.

(** ** Frontend: the auth store and the axios client *)
Module Frontend.

(** [AuthState]: the data fields of the zustand store. The user object
    is whatever JSON object the server sent. *)
Record AuthState := {
  user : option (gmap string JsVal);
  accessToken : option string;
  isAuthenticated : bool;
  isLoading : bool;
}.

(** The store as [create] builds it. *)
Definition initial_state : AuthState :=
  {| user := None; accessToken := None;
     isAuthenticated := false; isLoading := true |}.

(** The part of an axios request config the client reads or writes:
    [headers.Authorization] and the custom [_retry] mark. *)
Record Config := {
  method : string;
  url : string;
  Authorization : option string;
  _retry : bool;
}.

(** The body of a response: the two fields the client looks at. *)
Record Data := {
  access_token : option string;
  data_user : option (gmap string JsVal);
}.

Record AxiosResponse := {
  status : Z;
  data : Data;
}.

(** What a promise of the client can be rejected with: an [AxiosError]
    (it carries the config of its request) or some other [Error]. *)
Inductive Thrown :=
| AxiosError (code : option string) (response : option AxiosResponse)
             (message : string) (config : Config)
| Error (message : string).

(** How the transport fails a request, before the request's config is
    attached to the error. *)
Inductive Failure :=
| AxiosFailure (code : option string) (response : option AxiosResponse)
               (message : string)
| OtherFailure (message : string).

Definition thrown (f : Failure) (config : Config) : Thrown :=
  match f with
  | AxiosFailure code response message => AxiosError code response message config
  | OtherFailure message => Error message
  end.

(** What the transport does with one request. *)
Inductive Reply :=
| Fulfils (response : AxiosResponse)
| Rejects (f : Failure).

(** The state of a promise when the program has run as far as it can. *)
Inductive Promise (A : Type) :=
| Fulfilled (a : A)
| Rejected (reason : Thrown)
| Pending.
Arguments Fulfilled {A} a.
Arguments Rejected {A} reason.
Arguments Pending {A}.

Definition then_ {A B : Type} (f : A → B) (p : Promise A) : Promise B :=
  match p with
  | Fulfilled a => Fulfilled (f a)
  | Rejected reason => Rejected reason
  | Pending => Pending
  end.

Inductive ConsoleEntry :=
| console_error (label : string) (err : Thrown)
| console_warn (label : string) (err : Thrown).

(** Promises that were started and not awaited by their caller. *)
Inductive Task :=
| LogoutTask.

(** Everything the client code reads or writes: the store, the
    module-level [isRefreshing], the replies the transport is going to
    give (one per request, in the order the requests are made), the
    requests handed to the transport so far (oldest first), the console,
    and the promises nobody awaits. *)
Record World := {
  store : AuthState;
  isRefreshing : bool;
  script : list Reply;
  wire : list Config;
  console : list ConsoleEntry;
  spawned : list Task;
}.

Definition with_store (st : AuthState) (w : World) : World :=
  {| store := st; isRefreshing := isRefreshing w; script := script w;
     wire := wire w; console := console w; spawned := spawned w |}.

Definition with_isRefreshing (b : bool) (w : World) : World :=
  {| store := store w; isRefreshing := b; script := script w;
     wire := wire w; console := console w; spawned := spawned w |}.

Definition with_script (s : list Reply) (w : World) : World :=
  {| store := store w; isRefreshing := isRefreshing w; script := s;
     wire := wire w; console := console w; spawned := spawned w |}.

Definition send (config : Config) (w : World) : World :=
  {| store := store w; isRefreshing := isRefreshing w; script := script w;
     wire := wire w ++ [config]; console := console w; spawned := spawned w |}.

Definition log (e : ConsoleEntry) (w : World) : World :=
  {| store := store w; isRefreshing := isRefreshing w; script := script w;
     wire := wire w; console := console w ++ [e]; spawned := spawned w |}.

Definition spawn (t : Task) (w : World) : World :=
  {| store := store w; isRefreshing := isRefreshing w; script := script w;
     wire := wire w; console := console w; spawned := spawned w ++ [t] |}.

Definition with_spawned (ts : list Task) (w : World) : World :=
  {| store := store w; isRefreshing := isRefreshing w; script := script w;
     wire := wire w; console := console w; spawned := ts |}.

(** [set({ user: null, accessToken: null, isAuthenticated: false })]:
    zustand merges the partial state, so [isLoading] keeps its value. *)
Definition cleared (st : AuthState) : AuthState :=
  {| user := None; accessToken := None;
     isAuthenticated := false; isLoading := isLoading st |}.

(** [useAuthStore.getState().accessToken = access_token] *)
Definition assign_accessToken (t : option string) (st : AuthState) : AuthState :=
  {| user := user st; accessToken := t;
     isAuthenticated := isAuthenticated st; isLoading := isLoading st |}.

Definition with_Authorization (h : option string) (c : Config) : Config :=
  {| method := method c; url := url c; Authorization := h; _retry := _retry c |}.

Definition with_retry (c : Config) : Config :=
  {| method := method c; url := url c;
     Authorization := Authorization c; _retry := true |}.

(** [`Bearer ${t}`] for a token that is a string. [None] stands for
    [undefined] and prints as such; a [null] token, which would print
    as [null], is not told apart from it. *)
Definition bearer (t : option string) : string :=
  "Bearer " +:+ default "undefined" t.

(** The request interceptor. *)
Definition request_interceptor (config : Config) (w : World) : Config :=
  let accessToken := accessToken (store w) in
  if truthy accessToken
  then with_Authorization (Some (bearer accessToken)) config
  else config.

(** The transport: the request goes on the wire and gets the next
    reply of the script; when there is none the request stays
    unanswered. *)
Definition transport (config : Config) (w : World) : option Reply * World :=
  let w := send config w in
  match script w with
  | [] => (None, w)
  | r :: rest => (Some r, with_script rest w)
  end.

(** [error.response?.status === 401 && !originalRequest._retry] *)
Definition unauthorized_first (error : Thrown) : bool :=
  match error with
  | AxiosError _ (Some response) _ originalRequest =>
      Z.eqb (status response) 401 && negb (_retry originalRequest)
  | _ => false
  end.

(** Where the rejection handler of the response interceptor stands
    when it first gives up control. *)
Inductive Entered :=
| PassThrough (error : Thrown)
| AwaitRefresh (originalRequest : Config).

(** The handler from its entry to its first [await] (or to its
    [return Promise.reject(error)]); it runs without interruption.
    [error.config] and [originalRequest] are one object, so the mark is
    seen through the error too. *)
Definition on_rejected_enter (error : Thrown) (w : World) : Entered * World :=
  match error with
  | AxiosError code response message originalRequest =>
      if unauthorized_first error then
        let originalRequest := with_retry originalRequest in
        if negb (isRefreshing w)
        then (AwaitRefresh originalRequest, with_isRefreshing true w)
        else (PassThrough (AxiosError code response message originalRequest), w)
      else (PassThrough error, w)
  | Error _ => (PassThrough error, w)
  end.

(** [err instanceof AxiosError && (err.code === 'ERR_NETWORK' || !err.response)] *)
Definition is_network_error (err : Thrown) : bool :=
  match err with
  | AxiosError code response _ _ =>
      bool_decide (code = Some "ERR_NETWORK") || bool_decide (response = None)
  | Error _ => false
  end.

Inductive Resumed :=
| Resubmit (originalRequest : Config)
| Propagate (err : Thrown).

(** The handler from the point where the awaited refresh call has
    settled: the rest of the [try] block, or the [catch] block. *)
Definition on_refresh_settled (originalRequest : Config)
    (outcome : Thrown + AxiosResponse) (w : World) : Resumed * World :=
  match outcome with
  | inr refreshResponse =>
      let access_token := access_token (data refreshResponse) in
      let w := with_store (assign_accessToken access_token (store w)) w in
      let w := with_isRefreshing false w in
      let originalRequest :=
        with_Authorization (Some (bearer access_token)) originalRequest in
      (Resubmit originalRequest, w)
  | inl err =>
      let w := with_isRefreshing false w in
      let w := if is_network_error err
               then with_store (cleared (store w)) w
               else spawn LogoutTask w in
      (Propagate err, w)
  end.

(** [api.post(url)] without a body. *)
Definition post (url : string) : Config :=
  {| method := "post"; url := url; Authorization := None; _retry := false |}.

(** What an [await] on a promise gets once the promise has settled. *)
Definition settled {A : Type} (p : Promise A) : option (Thrown + A) :=
  match p with
  | Fulfilled a => Some (inr a)
  | Rejected reason => Some (inl reason)
  | Pending => None
  end.

(** The whole rejection handler, given the client it calls back into. *)
Definition on_rejected
    (api : Config → World → option (Promise AxiosResponse * World))
    (error : Thrown) (w : World) : option (Promise AxiosResponse * World) :=
  match on_rejected_enter error w with
  | (PassThrough error, w) => Some (Rejected error, w)
  | (AwaitRefresh originalRequest, w) =>
      match api (post "/auth/refresh") w with
      | None => None
      | Some (refresh, w) =>
          match settled refresh with
          | None => Some (Pending, w)
          | Some outcome =>
              match on_refresh_settled originalRequest outcome w with
              | (Resubmit originalRequest, w) => api originalRequest w
              | (Propagate err, w) => Some (Rejected err, w)
              end
          end
      end
  end.

(** One request through the client: request interceptor, transport,
    response interceptor. The handler calls the client again, so the
    nesting depth is bounded by [fuel]; [None] means it was not enough. *)
Fixpoint request (fuel : nat) (config : Config) (w : World)
  : option (Promise AxiosResponse * World) :=
  match fuel with
  | O => None
  | S fuel =>
      let config := request_interceptor config w in
      match transport config w with
      | (None, w) => Some (Pending, w)
      | (Some (Fulfils response), w) => Some (Fulfilled response, w)
      | (Some (Rejects f), w) => on_rejected (request fuel) (thrown f config) w
      end
  end.

(** The client. Two levels of nesting are all it ever needs
    ([request_enough_fuel] below). *)
Definition api (config : Config) (w : World) : Promise AxiosResponse * World :=
  default (Pending, w) (request 2 config w).

(** [authApi.refresh] and [authApi.logout] *)
Definition authApi_refresh (w : World) : Promise Data * World :=
  let '(p, w) := api (post "/auth/refresh") w in (then_ data p, w).

Definition authApi_logout (w : World) : Promise unit * World :=
  let '(p, w) := api (post "/auth/logout") w in (then_ (λ _, tt) p, w).

(** [isExpectedError] of [initAuth] *)
Definition isExpectedError (err : Thrown) : bool :=
  match err with
  | AxiosError code response message _ =>
      bool_decide (status <$> response = Some 401)
      || bool_decide (code = Some "ERR_NETWORK")
      || bool_decide (message = "Network Error")
  | Error message => bool_decide (message = "Network Error")
  end.

(** [initAuth] *)
Definition initAuth (w : World) : Promise unit * World :=
  match authApi_refresh w with
  | (Fulfilled response, w) =>
      (Fulfilled tt,
       with_store {| user := data_user response;
                     accessToken := access_token response;
                     isAuthenticated := true;
                     isLoading := false |} w)
  | (Rejected err, w) =>
      let w := if negb (isExpectedError err)
               then log (console_error "initAuth error:" err) w
               else w in
      (Fulfilled tt,
       with_store {| user := None; accessToken := None;
                     isAuthenticated := false; isLoading := false |} w)
  | (Pending, w) => (Pending, w)
  end.

(** [logout] *)
Definition logout (w : World) : Promise unit * World :=
  match authApi_logout w with
  | (Fulfilled _, w) => (Fulfilled tt, with_store (cleared (store w)) w)
  | (Rejected err, w) =>
      let w := log (console_warn
                 "Logout API call failed, clearing local state anyway:" err) w in
      (Fulfilled tt, with_store (cleared (store w)) w)
  | (Pending, w) => (Pending, w)
  end.

Definition run_task (t : Task) (w : World) : Promise unit * World :=
  match t with
  | LogoutTask => logout w
  end.

(** Let up to [n] of the promises nobody awaits run, oldest first.
    A task sends its request when it runs here, after the promise that
    started it; in the tab the request interceptor may already have
    stamped that request before, so the [Authorization] header of a
    started [logout] is not to be read off this order. *)
Fixpoint settle (n : nat) (w : World) : World :=
  match n with
  | O => w
  | S n =>
      match spawned w with
      | [] => w
      | t :: ts => settle n (snd (run_task t (with_spawned ts w)))
      end
  end.

(** *** Handlers of several requests, interleaved

    The runtime runs one handler at a time and switches only where a
    handler awaits. A handler that awaits its refresh call is kept in
    [awaiting] with the request it will resubmit; the replies arrive as
    events, in any order. *)
Record System := {
  world : World;
  awaiting : list Config;
}.

Inductive Event :=
| RequestRejected (error : Thrown)
| RefreshSettled (i : nat) (outcome : Thrown + AxiosResponse)
| StoreSet (st : AuthState).

Definition step (e : Event) (s : System) : option System :=
  match e with
  | RequestRejected error =>
      match on_rejected_enter error (world s) with
      | (PassThrough _, w) => Some {| world := w; awaiting := awaiting s |}
      | (AwaitRefresh originalRequest, w) =>
          let refresh := request_interceptor (post "/auth/refresh") w in
          Some {| world := send refresh w;
                  awaiting := awaiting s ++ [originalRequest] |}
      end
  | RefreshSettled i outcome =>
      match awaiting s !! i with
      | None => None
      | Some originalRequest =>
          let w :=
            match on_refresh_settled originalRequest outcome (world s) with
            | (Resubmit originalRequest, w) =>
                send (request_interceptor originalRequest w) w
            | (Propagate _, w) => w
            end in
          Some {| world := w; awaiting := delete i (awaiting s) |}
      end
  | StoreSet st =>
      Some {| world := with_store st (world s); awaiting := awaiting s |}
  end.

Fixpoint run (events : list Event) (s : System) : option System :=
  match events with
  | [] => Some s
  | e :: events =>
      match step e s with
      | Some s => run events s
      | None => None
      end
  end.

(** The module as it is loaded: [let isRefreshing = false], nothing sent. *)
Definition loaded : System :=
  {| world := {| store := initial_state; isRefreshing := false; script := [];
                 wire := []; console := []; spawned := [] |};
     awaiting := [] |}.

(** *** What a caller observes of a request that is not refreshed for *)

(** The error as its caller gets it when the handler lets it through:
    the same error object, its config marked if the handler did so. *)
Definition passed (error : Thrown) : Thrown :=
  match error with
  | AxiosError code response message originalRequest =>
      if unauthorized_first error
      then AxiosError code response message (with_retry originalRequest)
      else error
  | Error _ => error
  end.

(** One request made once: stamped, sent, and its rejection handed to
    the caller as [let_through] leaves it. *)
Definition once (let_through : Thrown → Thrown) (c : Config) (w : World)
  : Promise AxiosResponse * World :=
  let c := request_interceptor c w in
  match transport c w with
  | (None, w) => (Pending, w)
  | (Some (Fulfils response), w) => (Fulfilled response, w)
  | (Some (Rejects f), w) => (Rejected (let_through (thrown f c)), w)
  end.

(** The failure is one the handler takes for the network being down. *)
Definition network_level (f : Failure) : Prop :=
  ∃ code response message,
    f = AxiosFailure code response message ∧
    (code = Some "ERR_NETWORK" ∨ response = None).

(** The flag is up exactly while one handler awaits its refresh call. *)
Definition guarded (s : System) : Prop :=
  length (awaiting s) = if isRefreshing (world s) then 1%nat else 0%nat.

Definition is_console_error (e : ConsoleEntry) : bool :=
  match e with
  | console_error _ _ => true
  | console_warn _ _ => false
  end.

(** What [console.error] has printed. *)
Definition errors (l : list ConsoleEntry) : list ConsoleEntry :=
  List.filter is_console_error l.

(** The failure is one [initAuth] takes for expected: a response with
    status 401, the code [ERR_NETWORK], or the message [Network Error]. *)
Definition expected_failure (err : Thrown) : Prop :=
  match err with
  | AxiosError code response message _ =>
      (∃ r, response = Some r ∧ status r = 401) ∨
      code = Some "ERR_NETWORK" ∨ message = "Network Error"
  | Error message => message = "Network Error"
  end.

End Frontend.

(** ** Concrete collaborators and scenarios *)

(** An in-memory [UsersService], a transparent stand-in for the JWT
    library and for bcrypt: enough to run the service. *)
Module BackendExample.
Import Backend.

#[export] Instance users_in_memory : UsersService (list User) := {
  findByEmail e db := List.find (λ u, String.eqb (email u) e) db;
  findById i db := List.find (λ u, Z.eqb (id u) i) db;
  create e h db :=
    let u := {| id := Z.of_nat (length db) + 1; email := e;
                password := h; createdAt := 0 |} in
    (u, db ++ [u]);
}.

#[export] Instance jwt_in_clear : JwtService := {
  sign p o :=
    payload_email p +:+ "/" +:+
    match o with Some o => expiresIn o | None => "default" end;
  verifyAsync token secret :=
    if String.eqb token "a@b.com/7d"
    then Some {| sub := 1; payload_email := "a@b.com" |}
    else None;
}.

#[export] Instance bcrypt_prefix : Bcrypt := {
  hash p rounds := "$2b$" +:+ p;
  compare p h := String.eqb ("$2b$" +:+ p) h;
}.

Definition env : Env := {| JWT_REFRESH_SECRET := Some "refresh-secret" |}.

Definition alice : User :=
  {| id := 1; email := "a@b.com"; password := "$2b$secret1"; createdAt := 0 |}.

Definition alice_register : RegisterDto :=
  {| register_email := "a@b.com"; register_password := "secret1" |}.

Definition alice_login : LoginDto :=
  {| login_email := "a@b.com"; login_password := "secret1" |}.

Definition fresh_res : Res := {| set_cookies := [] |}.

Definition alice_cookie : Req :=
  {| cookies := Some {["refresh_token" := "a@b.com/7d"]} |}.

End BackendExample.

Module FrontendExample.
Import Frontend.

Definition no_data : Data := {| access_token := None; data_user := None |}.

Definition unauthorized : AxiosResponse := {| status := 401; data := no_data |}.

Definition rejected_401 : Failure :=
  AxiosFailure (Some "ERR_BAD_REQUEST") (Some unauthorized)
               "Request failed with status code 401".

Definition unreachable : Failure :=
  AxiosFailure (Some "ERR_NETWORK") None "Network Error".

Definition internal_error : Failure :=
  AxiosFailure (Some "ERR_BAD_RESPONSE") (Some {| status := 500; data := no_data |})
               "Request failed with status code 500".

Definition refreshed : AxiosResponse :=
  {| status := 201;
     data := {| access_token := Some "t2"; data_user := None |} |}.

Definition products : AxiosResponse := {| status := 200; data := no_data |}.

Definition get (url : string) : Config :=
  {| method := "get"; url := url; Authorization := None; _retry := false |}.

(** A signed-in tab whose access token [t1] has gone stale. *)
Definition signed_in (refreshing : bool) (replies : list Reply) : World :=
  {| store := {| user := None; accessToken := Some "t1";
                 isAuthenticated := true; isLoading := false |};
     isRefreshing := refreshing;
     script := replies;
     wire := [];
     console := [];
     spawned := [] |}.

(** The tab as it starts, before [initAuth]. *)
Definition starting (replies : list Reply) : World :=
  {| store := initial_state;
     isRefreshing := false;
     script := replies;
     wire := [];
     console := [];
     spawned := [] |}.

(** Two requests went out with the stale token and both come back 401. *)
Definition first_sent : Config :=
  {| method := "get"; url := "/products"; Authorization := Some "Bearer t1";
     _retry := false |}.

Definition second_sent : Config :=
  {| method := "get"; url := "/products/7"; Authorization := Some "Bearer t1";
     _retry := false |}.

Definition unauthorized_error (c : Config) : Thrown := thrown rejected_401 c.

Definition two_in_flight : System :=
  {| world :=
       {| store := {| user := None; accessToken := Some "t1";
                      isAuthenticated := true; isLoading := false |};
          isRefreshing := false;
          script := [];
          wire := [first_sent; second_sent];
          console := [];
          spawned := [] |};
     awaiting := [] |}.

(** The tab right after [App] has called [initAuth], and then with a
    login submitted; the transport has answered nothing yet. *)
Definition mounted : World := snd (initAuth (starting [])).

Definition login_submitted : World := snd (api (post "/auth/login") mounted).

Definition both_rejected_then_refreshed : list Event :=
  [RequestRejected (unauthorized_error first_sent);
   RequestRejected (unauthorized_error second_sent);
   RefreshSettled 0 (inr refreshed)].

End FrontendExample.

(** ** Backend: [AuthController] and the cookies of its client *)
Module AuthController.
Import Backend.

(** What a handler hands to [res.json]: a plain object, or the promise
    an [async] method returned when the call was not awaited. *)
Inductive Body :=
| AuthBody (result : AuthResult)
| MessageBody (message : string)
| EmptyObject.

Inductive Argument :=
| Plain (b : Body)
| PromiseOf (b : Body).

(** [JSON.stringify], which [res.json] applies: a promise has no
    enumerable property of its own and prints as [{}]. *)
Definition stringify (a : Argument) : Body :=
  match a with
  | Plain b => b
  | PromiseOf _ => EmptyObject
  end.

(** What has been written to the express response. *)
Record Sent := {
  response : Res;
  body : Body;
}.

Definition json (a : Argument) (res : Res) : Sent :=
  {| response := res; body := stringify a |}.

Section Controller.
Context {Db : Type} `{!UsersService Db, !JwtService, !Bcrypt}.
Variable env : Env.

(** [@Post('register')]: an exception of the service leaves the handler. *)
Definition register (registerDto : RegisterDto) (res : Res) (db : Db)
  : (HttpException + Sent) * Db :=
  match Backend.register env registerDto res db with
  | (inl e, _, db) => (inl e, db)
  | (inr result, res, db) => (inr (json (Plain (AuthBody result)) res), db)
  end.

(** [@Post('login')] *)
Definition login (loginDto : LoginDto) (res : Res) (db : Db)
  : HttpException + Sent :=
  match Backend.login env loginDto res db with
  | (inl e, _) => inl e
  | (inr result, res) => inr (json (Plain (AuthBody result)) res)
  end.

(** [@Post('refresh')]: the promise is returned to the framework, which
    awaits it and sends its value; the handler has no [res]. *)
Definition refresh (req : Req) (db : Db) : HttpException + Body :=
  match Backend.refresh env req db with
  | inl e => inl e
  | inr result => inr (AuthBody result)
  end.

(** [@Post('logout')]: the service method is [async] and has no
    [await], so its body runs during the call; [result] is the promise
    it returns, and that promise is what goes to [res.json]. *)
Definition logout (res : Res) : Sent :=
  let '(message, res) := Backend.logout res in
  let result := PromiseOf (MessageBody message) in
  json result res.

End Controller.

(** *** The cookie store of a client

    The client keeps one value per cookie name and path. It applies the
    cookie headers of a response in order; a cleared cookie is dropped.
    [res.cookie] and [res.clearCookie] default the path to [/]. *)
Definition Jar := list (string * string * string).

Definition same_cookie (name path : string) (c : string * string * string) : bool :=
  String.eqb (fst (fst c)) name && String.eqb (snd (fst c)) path.

Definition drop (name path : string) (jar : Jar) : Jar :=
  List.filter (λ c, negb (same_cookie name path c)) jar.

Definition apply_header (jar : Jar) (h : SetCookie) : Jar :=
  match h with
  | Cookie name value options =>
      let path := default "/" (path options) in
      drop name path jar ++ [(name, path, value)]
  | ClearCookie name options =>
      drop name (default "/" (path options)) jar
  end.

(** The jar after a response whose queue of headers started empty. *)
Definition receive (jar : Jar) (res : Res) : Jar :=
  foldl apply_header jar (set_cookies res).

(** The request the client makes next to a path under [/]: it carries
    the cookies of path [/], parsed by [cookie-parser] into
    [req.cookies]. *)
Definition request_with (jar : Jar) : Req :=
  {| cookies :=
       Some (list_to_map
               (List.map (λ c, (fst (fst c), snd c))
                  (List.filter (λ c, String.eqb (snd (fst c)) "/") jar))) |}.

End AuthController.

(** ** Frontend: the other operations of the store *)
Module AuthStore.
Import Frontend.

(** [LoginCredentials] and [RegisterCredentials]: the request body. The
    interceptors do not read it. *)
Record Credentials := {
  email : string;
  password : string;
}.

(** [authApi.login] and [authApi.register] *)
Definition authApi_login (credentials : Credentials) (w : World)
  : Promise Data * World :=
  let '(p, w) := api (post "/auth/login") w in (then_ data p, w).

Definition authApi_register (credentials : Credentials) (w : World)
  : Promise Data * World :=
  let '(p, w) := api (post "/auth/register") w in (then_ data p, w).

(** [err.code === 'ERR_NETWORK'] on an [AxiosError], or the message
    [Network Error] on any [Error]. *)
Definition is_connection_error (err : Thrown) : bool :=
  match err with
  | AxiosError code _ message _ =>
      bool_decide (code = Some "ERR_NETWORK")
      || bool_decide (message = "Network Error")
  | Error message => bool_decide (message = "Network Error")
  end.

Definition cannot_connect : string :=
  "Cannot connect to server. Please make sure the backend is running.".

(** [login]: [set] merges, so [isLoading] keeps its value. *)
Definition login (credentials : Credentials) (w : World) : Promise unit * World :=
  match authApi_login credentials w with
  | (Fulfilled response, w) =>
      (Fulfilled tt,
       with_store {| user := data_user response;
                     accessToken := access_token response;
                     isAuthenticated := true;
                     isLoading := isLoading (store w) |} w)
  | (Rejected err, w) =>
      if is_connection_error err
      then (Rejected (Error cannot_connect), w)
      else (Rejected err, log (console_error "Login failed:" err) w)
  | (Pending, w) => (Pending, w)
  end.

(** [register] *)
Definition register (credentials : Credentials) (w : World) : Promise unit * World :=
  match authApi_register credentials w with
  | (Fulfilled _, w) => (Fulfilled tt, w)
  | (Rejected err, w) =>
      (Rejected err, log (console_error "Register failed:" err) w)
  | (Pending, w) => (Pending, w)
  end.

End AuthStore.

(** ** Frontend: the login and register pages *)

(** [haystack.includes(needle)] *)
Definition includes (needle haystack : string) : bool :=
  match String.index 0 needle haystack with
  | Some _ => true
  | None => false
  end.

Definition message_of (err : Frontend.Thrown) : string :=
  match err with
  | Frontend.AxiosError _ _ message _ => message
  | Frontend.Error message => message
  end.

(** A call of [navigate]: the target and, for the login page, the
    [registeredEmail] of the location state. *)
Record Navigation := {
  to : string;
  registeredEmail : option string;
}.

Module LoginPage.
Import Frontend.

(** The [useState] cells of the page. *)
Record State := {
  email : string;
  password : string;
  error : string;
  success : bool;
  isLoading : bool;
}.

Definition setError (e : string) (s : State) : State :=
  {| email := email s; password := password s; error := e;
     success := success s; isLoading := isLoading s |}.

Definition setIsLoading (b : bool) (s : State) : State :=
  {| email := email s; password := password s; error := error s;
     success := success s; isLoading := b |}.

(** The message the [catch] block works out. Both kinds of [Thrown]
    are instances of [Error]. *)
Definition errorMessage (err : Thrown) : string :=
  if includes "Cannot connect to server" (message_of err) then message_of err
  else if match err with
          | AxiosError _ response _ _ =>
              bool_decide (status <$> response = Some 401)
          | Error _ => false
          end
       then "Invalid email or password"
  else if includes "401" (message_of err) then "Invalid email or password"
  else message_of err.

(** [handleSubmit]: the promise of the handler, the cells as the
    handler leaves them, and the calls of [navigate] it made. *)
Definition handleSubmit (s : State) (w : World)
  : Promise unit * State * list Navigation * World :=
  let s := setError "" s in
  let s := setIsLoading true s in
  match AuthStore.login {| AuthStore.email := email s;
                           AuthStore.password := password s |} w with
  | (Fulfilled _, w) =>
      (Fulfilled tt, setIsLoading false s,
       [{| to := "/products"; registeredEmail := None |}], w)
  | (Rejected err, w) =>
      let s := setError (errorMessage err) s in
      (Fulfilled tt, setIsLoading false s, [], w)
  | (Pending, w) => (Pending, s, [], w)
  end.

End LoginPage.

Module RegisterPage.
Import Frontend.

Record State := {
  email : string;
  password : string;
  confirmPassword : string;
  error : string;
  success : bool;
  isLoading : bool;
}.

Definition setError (e : string) (s : State) : State :=
  {| email := email s; password := password s;
     confirmPassword := confirmPassword s; error := e;
     success := success s; isLoading := isLoading s |}.

Definition setSuccess (b : bool) (s : State) : State :=
  {| email := email s; password := password s;
     confirmPassword := confirmPassword s; error := error s;
     success := b; isLoading := isLoading s |}.

Definition setIsLoading (b : bool) (s : State) : State :=
  {| email := email s; password := password s;
     confirmPassword := confirmPassword s; error := error s;
     success := success s; isLoading := b |}.

(** A [setTimeout]: the delay in milliseconds and the navigation its
    callback makes. *)
Definition Timer : Type := Z * Navigation.

(** [handleSubmit]: the promise of the handler, the cells as the
    handler leaves them, and the timers it set. A character of the
    model stands for one UTF-16 code unit of the JS string. *)
Definition handleSubmit (s : State) (w : World)
  : Promise unit * State * list Timer * World :=
  let s := setError "" s in
  let s := setSuccess false s in
  if negb (String.eqb (password s) (confirmPassword s)) then
    (Fulfilled tt, setError "Passwords do not match" s, [], w)
  else if (String.length (password s) <? 6)%nat then
    (Fulfilled tt, setError "Password must be at least 6 characters" s, [], w)
  else
    let s := setIsLoading true s in
    match AuthStore.register {| AuthStore.email := email s;
                                AuthStore.password := password s |} w with
    | (Fulfilled _, w) =>
        let s := setSuccess true s in
        (Fulfilled tt, setIsLoading false s,
         [(2000, {| to := "/login"; registeredEmail := Some (email s) |})], w)
    | (Rejected err, w) =>
        let errorMessage := message_of err in
        let s := setError (if includes "409" errorMessage
                           then "Email already exists"
                           else errorMessage) s in
        (Fulfilled tt, setIsLoading false s, [], w)
    | (Pending, w) => (Pending, s, [], w)
    end.

End RegisterPage.

(** ** Frontend: the table and its pagination

    Page numbers, sizes and counts are JS numbers holding integers;
    they are modelled as [Z]. *)
Module DataTable.

(** What the table library reports when it paginates by itself. The
    component hands the library [pagination: undefined] in that mode;
    what the library makes of it is not modelled, and the properties
    below are about manual pagination only. *)
Record Table := {
  table_pageIndex : Z;
  getPageCount : Z;
  getCanPreviousPage : bool;
  getCanNextPage : bool;
}.

(** [DataTableProps]; an optional prop that is not passed is [None]. *)
Record Props (TData : Type) := {
  data : list TData;
  pageCount : option Z;
  pageIndex : option Z;
  pageSize : option Z;
  total : option Z;
  onPageChange : bool;
  isLoading : option bool;
  manualPagination : option bool;
}.
Arguments data {TData} _.
Arguments pageCount {TData} _.
Arguments pageIndex {TData} _.
Arguments pageSize {TData} _.
Arguments total {TData} _.
Arguments onPageChange {TData} _.
Arguments isLoading {TData} _.
Arguments manualPagination {TData} _.

(** What a handler does: call [onPageChange], or ask the library. *)
Inductive Action :=
| OnPageChange (page : Z)
| TablePreviousPage
| TableNextPage.

(** The pagination bar. *)
Record Footer := {
  startRow : Z;
  endRow : Z;
  totalRows : Z;
  currentPage : Z;
  totalPages : Z;
  previousDisabled : bool;
  nextDisabled : bool;
}.

Inductive View :=
| Spinner
| NoData
| Rows (footer : option Footer).

Section Component.
Context {TData : Type}.
Variable props : Props TData.
Variable table : Table.

(** The props with their defaults. *)
Definition pageCount' : Z := default 0 (pageCount props).
Definition pageIndex' : Z := default 0 (pageIndex props).
Definition pageSize' : Z := default 10 (pageSize props).
Definition total' : Z := default 0 (total props).
Definition isLoading' : bool := default false (isLoading props).
Definition manualPagination' : bool := default false (manualPagination props).

Definition handlePreviousPage : Action :=
  if manualPagination' && onPageChange props
  then OnPageChange pageIndex'
  else TablePreviousPage.

Definition handleNextPage : Action :=
  if manualPagination' && onPageChange props
  then OnPageChange (pageIndex' + 2)
  else TableNextPage.

Definition currentPage' : Z :=
  if manualPagination' then pageIndex' + 1 else table_pageIndex table + 1.

Definition totalPages' : Z :=
  if manualPagination' then pageCount' else getPageCount table.

Definition canPreviousPage : bool :=
  if manualPagination' then (0 <? pageIndex')%Z else getCanPreviousPage table.

Definition canNextPage : bool :=
  if manualPagination' then (pageIndex' + 1 <? pageCount')%Z
  else getCanNextPage table.

Definition data_length : Z := Z.of_nat (length (data props)).

Definition startRow' : Z :=
  if manualPagination' then pageIndex' * pageSize' + 1
  else currentPage' * pageSize' - pageSize' + 1.

(** [total || data.length]: zero is falsy. *)
Definition endRow' : Z :=
  if manualPagination' then Z.min ((pageIndex' + 1) * pageSize') total'
  else Z.min (currentPage' * pageSize')
             (if (total' =? 0)%Z then data_length else total').

Definition totalRows' : Z :=
  if manualPagination' then total' else data_length.

(** What the component returns, as far as it computes it itself. *)
Definition render : View :=
  if isLoading' then Spinner
  else if (data_length =? 0)%Z then NoData
  else Rows
    (if (10 <=? totalRows')%Z && (1 <? totalPages')%Z
     then Some {| startRow := startRow'; endRow := endRow';
                  totalRows := totalRows'; currentPage := currentPage';
                  totalPages := totalPages';
                  previousDisabled := negb canPreviousPage;
                  nextDisabled := negb canNextPage |}
     else None).

(** Pressing a button of the pagination bar: a disabled button does
    not call its handler, and without the bar there is no button. *)
Definition press_previous : option Action :=
  match render with
  | Rows (Some footer) =>
      if previousDisabled footer then None else Some handlePreviousPage
  | _ => None
  end.

Definition press_next : option Action :=
  match render with
  | Rows (Some footer) =>
      if nextDisabled footer then None else Some handleNextPage
  | _ => None
  end.

End Component.
End DataTable.

(** [ProductsPage]: the cells the table is fed from. *)
Module ProductsPage.
Import DataTable.

(** [const [limit] = useState(10)]: there is no setter. *)
Definition limit : Z := 10.

(** [Math.ceil(a / b)] for integers and a positive [b]. *)
Definition ceil_div (a b : Z) : Z := - ((- a) / b).

Record State (Product : Type) := {
  products : list Product;
  total : Z;
  page : Z;
  isLoading : bool;
}.
Arguments products {Product} _.
Arguments total {Product} _.
Arguments page {Product} _.
Arguments isLoading {Product} _.

Definition setPage {Product} (p : Z) (s : State Product) : State Product :=
  {| products := products s; total := total s; page := p;
     isLoading := isLoading s |}.

(** The props of [<DataTable ... manualPagination={true} />]. *)
Definition table_props {Product} (s : State Product) : Props Product :=
  {| data := products s;
     pageCount := Some (ceil_div (total s) limit);
     pageIndex := Some (page s - 1);
     pageSize := Some limit;
     DataTable.total := Some (total s);
     onPageChange := true;
     DataTable.isLoading := Some (isLoading s);
     manualPagination := Some true |}.

(** [onPageChange={setPage}] *)
Definition act {Product} (a : Action) (s : State Product) : State Product :=
  match a with
  | OnPageChange p => setPage p s
  | TablePreviousPage | TableNextPage => s
  end.

End ProductsPage.

(** ** More concrete scenarios *)
Module PageExample.
Import Frontend FrontendExample.

Definition conflict : Failure :=
  AxiosFailure (Some "ERR_BAD_REQUEST") (Some {| status := 409; data := no_data |})
               "Request failed with status code 409".

Definition server_error : Failure :=
  AxiosFailure (Some "ERR_BAD_RESPONSE") (Some {| status := 500; data := no_data |})
               "Request failed with status code 500".

Definition signed : AxiosResponse :=
  {| status := 201;
     data := {| access_token := Some "t1"; data_user := None |} |}.

Definition credentials : AuthStore.Credentials :=
  {| AuthStore.email := "a@b.com"; AuthStore.password := "secret1" |}.

Definition login_form : LoginPage.State :=
  {| LoginPage.email := "a@b.com"; LoginPage.password := "secret1";
     LoginPage.error := "Failed to login"; LoginPage.success := false;
     LoginPage.isLoading := false |}.

Definition register_form (password confirm : string) : RegisterPage.State :=
  {| RegisterPage.email := "a@b.com"; RegisterPage.password := password;
     RegisterPage.confirmPassword := confirm; RegisterPage.error := "";
     RegisterPage.success := false; RegisterPage.isLoading := false |}.

(** Twenty-five products, the second page of three on display. *)
Definition second_page : ProductsPage.State unit :=
  {| ProductsPage.products := replicate 10 tt;
     ProductsPage.total := 25;
     ProductsPage.page := 2;
     ProductsPage.isLoading := false |}.

Definition no_table : DataTable.Table :=
  {| DataTable.table_pageIndex := 0; DataTable.getPageCount := 0;
     DataTable.getCanPreviousPage := false;
     DataTable.getCanNextPage := false |}.

End PageExample.

(** * Properties *)

Module BackendFacts.
Import Backend.

Section Service.
Context {Db : Type} `{!UsersService Db, !JwtService, !Bcrypt}.
Variable env : Env.

(** Rest destructuring without [password] leaves the other three
    properties, whatever the hash was. *)
Lemma properties_without_password (u : User) :
  delete "password" (properties u)
  = <["id" := JNum (id u)]>
    (<["email" := JStr (email u)]>
    (<["createdAt" := JDate (createdAt u)]> ∅)).
Proof.
  unfold properties.
  rewrite !delete_insert_ne by done.
  by rewrite delete_insert_eq, delete_insert_ne, delete_empty by done.
Qed.

Lemma dom_properties_without_password (u : User) :
  dom (delete "password" (properties u))
  = ({["id"; "email"; "createdAt"]} : gset string).
Proof.
  rewrite properties_without_password, !dom_insert_L, dom_empty_L.
  set_solver.
Qed.

(** C9. A [register] or [login] that returns a result has queued
    exactly one more cookie on the response: it is named
    [refresh_token], its options are [httpOnly: true], [sameSite:
    'lax'], [path: '/'] (and [secure: false]), and its value is the
    user's payload signed with the refresh secret and [expiresIn:
    '7d']. *)
Theorem refresh_cookie_contract :
  (∀ dto res db result res' db',
     register env dto res db = (inr result, res', db') →
     ∃ u : User,
       create (register_email dto) (hash (register_password dto) 10) db
         = (u, db') ∧
       set_cookies res' = set_cookies res ++
         [Cookie "refresh_token"
            (sign {| sub := id u; payload_email := email u |}
                  (Some {| secret := JWT_REFRESH_SECRET env;
                           expiresIn := "7d" |}))
            {| httpOnly := Some true; secure := Some false;
               sameSite := Some "lax"; path := Some "/" |}]) ∧
  (∀ dto res db result res',
     login env dto res db = (inr result, res') →
     ∃ u : User,
       findByEmail (login_email dto) db = Some u ∧
       set_cookies res' = set_cookies res ++
         [Cookie "refresh_token"
            (sign {| sub := id u; payload_email := email u |}
                  (Some {| secret := JWT_REFRESH_SECRET env;
                           expiresIn := "7d" |}))
            {| httpOnly := Some true; secure := Some false;
               sameSite := Some "lax"; path := Some "/" |}]).
Proof.
  split.
  - intros dto res db result res' db'. unfold register.
    destruct (findByEmail _ db); [done|].
    destruct (create _ _ db) as [u db1]. intros [= <- <- <-]. by exists u.
  - intros dto res db result res'. unfold login.
    destruct (findByEmail _ db) as [u|]; [|done].
    destruct (compare _ _); [|done]. simpl. intros [= <- <-]. by exists u.
Qed.

(** C10. Every response of the service is made of the user's [id],
    [email] and [createdAt] and of nothing else of the entity, so it is
    the same whatever hash is stored. [register] and [login] return the
    access token signed over [sub] and [email] and the entity's
    properties without [password] (what is left is [id], [email],
    [createdAt], with the entity's values), and queue the refresh token
    signed over the same payload. [refresh] returns such an access
    token and a user object with [id] and [email] of the user the token
    names, and nothing else. [logout] returns a fixed message and
    queues the clearing of the cookie. *)
Theorem responses_carry_no_password :
  (∀ dto res db result res' db',
     register env dto res db = (inr result, res', db') →
     user result !! "password" = None ∧
     dom (user result) = ({["id"; "email"; "createdAt"]} : gset string) ∧
     ∃ u : User,
       create (register_email dto) (hash (register_password dto) 10) db
         = (u, db') ∧
       access_token result
       = sign {| sub := id u; payload_email := email u |} None ∧
       user result = <["id" := JNum (id u)]>
                     (<["email" := JStr (email u)]>
                     (<["createdAt" := JDate (createdAt u)]> ∅)) ∧
       set_cookies res' = set_cookies res ++
         [Cookie "refresh_token"
            (sign {| sub := id u; payload_email := email u |}
                  (Some {| secret := JWT_REFRESH_SECRET env;
                           expiresIn := "7d" |}))
            {| httpOnly := Some true; secure := Some false;
               sameSite := Some "lax"; path := Some "/" |}]) ∧
  (∀ dto res db result res',
     login env dto res db = (inr result, res') →
     user result !! "password" = None ∧
     dom (user result) = ({["id"; "email"; "createdAt"]} : gset string) ∧
     ∃ u : User,
       findByEmail (login_email dto) db = Some u ∧
       access_token result
       = sign {| sub := id u; payload_email := email u |} None ∧
       user result = <["id" := JNum (id u)]>
                     (<["email" := JStr (email u)]>
                     (<["createdAt" := JDate (createdAt u)]> ∅)) ∧
       set_cookies res' = set_cookies res ++
         [Cookie "refresh_token"
            (sign {| sub := id u; payload_email := email u |}
                  (Some {| secret := JWT_REFRESH_SECRET env;
                           expiresIn := "7d" |}))
            {| httpOnly := Some true; secure := Some false;
               sameSite := Some "lax"; path := Some "/" |}]) ∧
  (∀ req db result,
     refresh env req db = inr result →
     user result !! "password" = None ∧
     dom (user result) = ({["id"; "email"]} : gset string) ∧
     ∃ (token : string) (payload : Payload) (u : User),
       cookies req ≫= (λ c, c !! "refresh_token") = Some token ∧
       verifyAsync token (JWT_REFRESH_SECRET env) = Some payload ∧
       findById (sub payload) db = Some u ∧
       access_token result
       = sign {| sub := id u; payload_email := email u |} None ∧
       user result = <["id" := JNum (id u)]>
                     (<["email" := JStr (email u)]> ∅)) ∧
  (∀ res,
     fst (logout res) = "Logged out successfully" ∧
     set_cookies (snd (logout res)) = set_cookies res ++
       [ClearCookie "refresh_token"
          {| httpOnly := Some true; secure := None;
             sameSite := None; path := Some "/" |}]).
Proof.
  split; [|split; [|split]].
  - intros dto res db result res' db'. unfold register.
    destruct (findByEmail _ db); [done|].
    destruct (create _ _ db) as [u db1]. intros [= <- <- <-]. simpl.
    split; [apply lookup_delete_eq|].
    split; [apply dom_properties_without_password|].
    exists u. split; [done|]. split; [done|].
    split; [apply properties_without_password|done].
  - intros dto res db result res'. unfold login.
    destruct (findByEmail _ db) as [u|]; [|done].
    destruct (compare _ _); [|done]. simpl. intros [= <- <-]. simpl.
    split; [apply lookup_delete_eq|].
    split; [apply dom_properties_without_password|].
    exists u. split; [done|]. split; [done|].
    split; [apply properties_without_password|done].
  - intros req db result. unfold refresh.
    destruct (cookies req ≫= _) as [token|] eqn:Hcookie; [|done].
    destruct (negb _); [done|]. simpl.
    destruct (verifyAsync _ _) as [payload|] eqn:Hv; [|done]. simpl.
    destruct (findById _ db) as [u|] eqn:Hf; [|done]. simpl.
    intros [= <-]. simpl. split; [done|].
    split; [rewrite !dom_insert_L, dom_empty_L; set_solver|].
    by exists token, payload, u.
  - done.
Qed.

End Service.

Import BackendExample.

(** Alice registers, then logs in. *)
Lemma refresh_cookie_contract_witness :
  (∃ u : Backend.User,
     create "a@b.com" (hash "secret1" 10) [] = (u, [alice]) ∧
     set_cookies (snd (fst (register env alice_register fresh_res [])))
     = [Cookie "refresh_token"
          (sign {| sub := id u; payload_email := email u |}
                (Some {| secret := Some "refresh-secret"; expiresIn := "7d" |}))
          {| httpOnly := Some true; secure := Some false;
             sameSite := Some "lax"; path := Some "/" |}]) ∧
  (∃ u : Backend.User,
     findByEmail "a@b.com" [alice] = Some u ∧
     set_cookies (snd (login env alice_login fresh_res [alice]))
     = [Cookie "refresh_token"
          (sign {| sub := id u; payload_email := email u |}
                (Some {| secret := Some "refresh-secret"; expiresIn := "7d" |}))
          {| httpOnly := Some true; secure := Some false;
             sameSite := Some "lax"; path := Some "/" |}]).
Proof.
  split.
  - exact (proj1 (refresh_cookie_contract env)
             alice_register fresh_res [] _ _ _ eq_refl).
  - exact (proj2 (refresh_cookie_contract env)
             alice_login fresh_res [alice] _ _ eq_refl).
Defined.

Lemma responses_carry_no_password_witness :
  (∃ result,
     login env alice_login fresh_res [alice]
     = (inr result, snd (login env alice_login fresh_res [alice])) ∧
     Backend.user result !! "password" = None ∧
     Backend.access_token result = "a@b.com/default") ∧
  (∃ result,
     refresh env alice_cookie [alice] = inr result ∧
     dom (Backend.user result) = ({["id"; "email"]} : gset string)).
Proof.
  split.
  - edestruct (proj1 (proj2 (responses_carry_no_password env))
                 alice_login fresh_res [alice])
      as (Hp & _ & u & Hu & Ht & _); [reflexivity|].
    eexists. split; [reflexivity|].
    split; [exact Hp|]. injection Hu as <-. exact Ht.
  - eexists. split; [reflexivity|].
    exact (proj1 (proj2 (proj1 (proj2 (proj2 (responses_carry_no_password env)))
                    alice_cookie [alice] _ eq_refl))).
Defined.

End BackendFacts.


Module FrontendFacts.
Import Frontend.

(** ** The request interceptor only touches the header *)

Lemma retry_request_interceptor c w :
  _retry (request_interceptor c w) = _retry c.
Proof. unfold request_interceptor. by destruct (truthy _). Qed.

Lemma url_request_interceptor c w :
  url (request_interceptor c w) = url c.
Proof. unfold request_interceptor. by destruct (truthy _). Qed.

(** ** A handler that does not start a refresh *)

Lemma enter_while_refreshing error w :
  isRefreshing w = true →
  on_rejected_enter error w = (PassThrough (passed error), w).
Proof.
  intros Hw. unfold on_rejected_enter, passed.
  destruct error as [code response message c|m]; [|done].
  rewrite Hw. by destruct (unauthorized_first _).
Qed.

Lemma enter_retried code response message c w :
  _retry c = true →
  on_rejected_enter (AxiosError code response message c) w
  = (PassThrough (AxiosError code response message c), w).
Proof.
  intros Hc. unfold on_rejected_enter, unauthorized_first.
  destruct response as [r|]; [|done].
  rewrite Hc. by rewrite andb_false_r.
Qed.

Lemma enter_thrown_retried f c w :
  _retry c = true →
  on_rejected_enter (thrown f c) w = (PassThrough (thrown f c), w).
Proof. destruct f; [apply enter_retried|done]. Qed.

Lemma isRefreshing_transport c w :
  isRefreshing (snd (transport c w)) = isRefreshing w.
Proof. unfold transport. simpl. by destruct (script w). Qed.

Lemma request_while_refreshing n c w :
  isRefreshing w = true →
  request (S n) c w = Some (once passed c w).
Proof.
  intros Hw. unfold once. simpl.
  pose proof (isRefreshing_transport (request_interceptor c w) w) as Ht.
  destruct (transport _ w) as [[[r|f]|] w1]; simpl in *; try done.
  unfold on_rejected. rewrite enter_while_refreshing; [done|congruence].
Qed.

Lemma request_retried n c w :
  _retry c = true →
  request (S n) c w = Some (once id c w).
Proof.
  intros Hc. unfold once. simpl.
  destruct (transport _ w) as [[[r|f]|] w1]; simpl in *; try done.
  unfold on_rejected.
  rewrite enter_thrown_retried; [done|by rewrite retry_request_interceptor].
Qed.



Lemma resubmit_retried o outcome w o' w' :
  on_refresh_settled o outcome w = (Resubmit o', w') → _retry o' = _retry o.
Proof.
  unfold on_refresh_settled. destruct outcome as [err|r]; [|by intros [= <- _]].
  by destruct (is_network_error err).
Qed.

Lemma on_rejected_enough n error w :
  ∃ r, on_rejected (request (S n)) error w = Some r ∧
       on_rejected (request 1) error w = Some r.
Proof.
  unfold on_rejected.
  destruct (on_rejected_enter error w) as [[e|o] w1] eqn:He; [eauto|].
  assert (isRefreshing w1 = true ∧ _retry o = true) as [Hw1 Ho].
  { unfold on_rejected_enter in He.
    destruct error as [code response message c|m]; [|done].
    destruct (unauthorized_first _); [|done].
    destruct (negb (isRefreshing w)); [|done].
    by injection He as <- <-. }
  rewrite !request_while_refreshing by done.
  destruct (once passed _ w1) as [p w2].
  destruct (settled p) as [outcome|]; [|eauto].
  destruct (on_refresh_settled o outcome w2) as [[o'|err] w3] eqn:Hr; [|eauto].
  apply resubmit_retried in Hr.
  rewrite !request_retried by congruence. eauto.
Qed.

(** Two levels of nesting are enough for every request, in every
    world: more fuel changes nothing, and the client always has a
    result. *)
Theorem request_enough_fuel n c w :
  request (S (S n)) c w = Some (api c w).
Proof.
  unfold api.
  assert (request (S (S n)) c w = request 2 c w ∧ is_Some (request 2 c w))
    as [-> [r ->]]; [|done].
  change (request (S (S n)) c w) with
    (let c := request_interceptor c w in
      match transport c w with
      | (None, w) => Some (Pending, w)
      | (Some (Fulfils response), w) => Some (Fulfilled response, w)
      | (Some (Rejects f), w) => on_rejected (request (S n)) (thrown f c) w
      end).
  change (request 2 c w) with
    (let c := request_interceptor c w in
      match transport c w with
      | (None, w) => Some (Pending, w)
      | (Some (Fulfils response), w) => Some (Fulfilled response, w)
      | (Some (Rejects f), w) => on_rejected (request 1) (thrown f c) w
      end).
  cbv zeta. destruct (transport _ w) as [[[r|f]|] w1]; [by eauto| |by eauto].
  destruct (on_rejected_enough n (thrown f (request_interceptor c w)) w1)
    as (r & -> & ->). eauto.
Qed.

Lemma enter_await error w o w' :
  on_rejected_enter error w = (AwaitRefresh o, w') →
  isRefreshing w = false ∧ w' = with_isRefreshing true w ∧ _retry o = true ∧
  ∃ code response message c,
    error = AxiosError code response message c ∧ o = with_retry c.
Proof.
  unfold on_rejected_enter.
  destruct error as [code response message c|m]; [|done].
  destruct (unauthorized_first _); [|done].
  destruct (isRefreshing w); [done|].
  intros [= <- <-]. eauto 10.
Qed.

Lemma method_request_interceptor c w :
  method (request_interceptor c w) = method c.
Proof. unfold request_interceptor. by destruct (truthy _). Qed.

Lemma transport_eq c w :
  transport c w = (head (script w), with_script (tail (script w)) (send c w)).
Proof. unfold transport, with_script, send. simpl. by destruct (script w). Qed.

Lemma once_world let_through c w :
  snd (once let_through c w)
  = with_script (tail (script w)) (send (request_interceptor c w) w).
Proof.
  unfold once. rewrite transport_eq. by destruct (script w) as [|[r|f] sc].
Qed.

Lemma once_answer let_through c w :
  fst (once let_through c w)
  = match script w with
    | [] => Pending
    | Fulfils response :: _ => Fulfilled response
    | Rejects f :: _ =>
        Rejected (let_through (thrown f (request_interceptor c w)))
    end.
Proof.
  unfold once. rewrite transport_eq. by destruct (script w) as [|[r|f] sc].
Qed.

Lemma enter_pass error w e w' :
  on_rejected_enter error w = (PassThrough e, w') →
  (e = error ∨ (isRefreshing w = true ∧ e = passed error)) ∧ w' = w.
Proof.
  unfold on_rejected_enter, passed.
  destruct error as [code response message c|m].
  2: { intros [= <- <-]. eauto. }
  destruct (unauthorized_first _).
  2: { intros [= <- <-]. eauto. }
  destruct (isRefreshing w); [|done].
  intros [= <- <-]. eauto.
Qed.


(** The client with its nesting flattened: the refresh call is made
    while [isRefreshing] holds and the resubmitted request carries the
    mark, so neither is refreshed for. *)
Lemma api_eq c w :
  api c w =
  let c := request_interceptor c w in
  match transport c w with
  | (None, w) => (Pending, w)
  | (Some (Fulfils response), w) => (Fulfilled response, w)
  | (Some (Rejects f), w) =>
      match on_rejected_enter (thrown f c) w with
      | (PassThrough error, w) => (Rejected error, w)
      | (AwaitRefresh originalRequest, w) =>
          let '(refresh, w) := once passed (post "/auth/refresh") w in
          match settled refresh with
          | None => (Pending, w)
          | Some outcome =>
              match on_refresh_settled originalRequest outcome w with
              | (Resubmit originalRequest, w) => once id originalRequest w
              | (Propagate err, w) => (Rejected err, w)
              end
          end
      end
  end.
Proof.
  unfold api.
  change (request 2 c w) with
    (let c := request_interceptor c w in
      match transport c w with
      | (None, w) => Some (Pending, w)
      | (Some (Fulfils response), w) => Some (Fulfilled response, w)
      | (Some (Rejects f), w) => on_rejected (request 1) (thrown f c) w
      end).
  cbv zeta. destruct (transport _ w) as [[[r|f]|] w1]; [done| |done].
  unfold on_rejected.
  destruct (on_rejected_enter _ w1) as [[e|o] w2] eqn:He; [done|].
  apply enter_await in He as (_ & -> & Ho & _).
  rewrite request_while_refreshing by done.
  destruct (once passed _ _) as [p w3].
  destruct (settled p) as [outcome|]; [|done].
  destruct (on_refresh_settled o outcome w3) as [[o'|err] w4] eqn:Hr; [|done].
  apply resubmit_retried in Hr.
  by rewrite request_retried by congruence.
Qed.

(** C1. A request that is rejected with 401, carries no retry mark and
    finds no refresh in flight makes the handler raise [isRefreshing]
    (it is true when the handler gives up control to await its refresh
    call, and nothing else has changed by then). When that call is
    fulfilled with an access token (a non-empty string): the wire holds
    the request, then exactly one [POST /auth/refresh], then exactly
    one resubmission of the request, marked and with the header
    [Bearer <token>]; the store holds the new token and is otherwise as
    it was; [isRefreshing] is false again; and what the caller gets is
    what the transport answers to the resubmission. *)
Theorem refresh_then_retry_once
    (w : World) (c : Config) code (r401 : AxiosResponse) message
    (refreshResponse : AxiosResponse) (token : string) (rest : list Reply) :
  _retry c = false →
  isRefreshing w = false →
  status r401 = 401 →
  access_token (data refreshResponse) = Some token →
  token ≠ "" →
  script w = Rejects (AxiosFailure code (Some r401) message)
             :: Fulfils refreshResponse :: rest →
  let sent := request_interceptor c w in
  (∃ originalRequest w1,
     on_rejected_enter (AxiosError code (Some r401) message sent) w
       = (AwaitRefresh originalRequest, w1) ∧
     isRefreshing w1 = true ∧
     _retry originalRequest = true ∧
     url originalRequest = url c ∧ method originalRequest = method c ∧
     store w1 = store w ∧ wire w1 = wire w ∧ script w1 = script w ∧
     console w1 = console w ∧ spawned w1 = spawned w) ∧
  let '(result, w') := api c w in
  ∃ refresh resubmitted,
    wire w' = wire w ++ [sent; refresh; resubmitted] ∧
    method sent = method c ∧ url sent = url c ∧ _retry sent = false ∧
    method refresh = "post" ∧ url refresh = "/auth/refresh" ∧
    _retry refresh = false ∧
    method resubmitted = method c ∧ url resubmitted = url c ∧
    _retry resubmitted = true ∧
    Authorization resubmitted = Some ("Bearer " +:+ token) ∧
    accessToken (store w') = Some token ∧
    user (store w') = user (store w) ∧
    isAuthenticated (store w') = isAuthenticated (store w) ∧
    isLoading (store w') = isLoading (store w) ∧
    isRefreshing w' = false ∧
    console w' = console w ∧ spawned w' = spawned w ∧
    match rest with
    | [] => result = Pending ∧ script w' = []
    | Fulfils response :: rest' =>
        result = Fulfilled response ∧ script w' = rest'
    | Rejects (AxiosFailure code' response' message') :: rest' =>
        result = Rejected (AxiosError code' response' message' resubmitted) ∧
        script w' = rest'
    | Rejects (OtherFailure message') :: rest' =>
        result = Rejected (Error message') ∧ script w' = rest'
    end.
Proof.
  intros Hc Hw Hr Htok Hne Hs sent.
  pose proof (proj2 (String.eqb_neq token "") Hne) as Hb.
  split.
  { unfold on_rejected_enter, unauthorized_first.
    rewrite Hr, Hw. subst sent. rewrite retry_request_interceptor, Hc. simpl.
    eexists _, _. split; [reflexivity|]. simpl.
    by rewrite url_request_interceptor, method_request_interceptor. }
  rewrite api_eq. subst sent.
  destruct w as [st fl sc wi co sp], c as [m u a rt]; simpl in *; subst.
  unfold once, transport, request_interceptor, on_rejected_enter; simpl.
  destruct (truthy (accessToken st)) eqn:Ht; simpl; rewrite Hr; simpl;
    rewrite ?Ht; simpl.
  all: rewrite Htok; simpl; rewrite ?Hb; simpl.
  all: destruct rest as [|[r|[code' response' message'|message']] rest]; simpl.
  all: eexists _, _; rewrite <- !app_assoc; simpl.
  all: split; [reflexivity|]; simpl; by repeat split.
Qed.

Lemma is_network_error_passed e :
  is_network_error (passed e) = is_network_error e.
Proof.
  destruct e as [code response message c|m]; [|done].
  unfold passed. by destruct (unauthorized_first _).
Qed.

Lemma is_network_error_thrown f c :
  is_network_error (thrown f c) = true ↔ network_level f.
Proof.
  unfold network_level. destruct f as [code response message|m]; simpl.
  - rewrite orb_true_iff, !bool_decide_eq_true. split.
    + intros H. by exists code, response, message.
    + by intros (? & ? & ? & [= -> -> ->] & H).
  - split; [done|]. by intros (? & ? & ? & [=] & _).
Qed.

(** Case analysis on what the request interceptor stamps. *)
Ltac stamps :=
  repeat match goal with
  | H : truthy ?t = _ |- context [if truthy ?t then _ else _] =>
      rewrite H; simpl
  | |- context [if truthy ?t then _ else _] =>
      destruct (truthy t) eqn:?; simpl in *
  | H : context [if truthy ?t then _ else _] |- _ =>
      destruct (truthy t) eqn:?; simpl in *
  end.

(** Run the client on a world given by its fields. *)
Ltac world w c :=
  destruct w as [?st ?fl ?sc ?wi ?co ?sp], c as [?m ?u ?a ?rt];
  simpl in *; subst;
  unfold once, transport, request_interceptor, on_rejected_enter in *;
  simpl in *; stamps.

(** C2, as the code has it. When the refresh call that a 401 set off is
    rejected, the caller of the original request is rejected with the
    error of the refresh call (its config is the refresh request, marked
    by the handler when that error was a 401 itself), and the original
    request is not sent again. *)
Theorem refresh_failure_propagates_refresh_error
    (w : World) (c : Config) code (r401 : AxiosResponse) message
    (f : Failure) (rest : list Reply) :
  _retry c = false →
  isRefreshing w = false →
  status r401 = 401 →
  script w = Rejects (AxiosFailure code (Some r401) message)
             :: Rejects f :: rest →
  let sent := request_interceptor c w in
  let refresh := request_interceptor (post "/auth/refresh") w in
  let '(result, w') := api c w in
  result = Rejected (passed (thrown f refresh)) ∧
  wire w' = wire w ++ [sent; refresh] ∧
  script w' = rest ∧
  isRefreshing w' = false.
Proof.
  intros Hc Hw Hr Hs sent refresh. rewrite api_eq. subst sent refresh.
  world w c.
  all: rewrite Hr; simpl; stamps.
  all: unfold on_refresh_settled.
  all: destruct (is_network_error _); simpl.
  all: by rewrite <- !app_assoc.
Qed.

(** C6. When the refresh call fails at network level (no response, or
    code [ERR_NETWORK]) the store is cleared on the spot: no user, no
    access token, not authenticated. Only the original request and the
    refresh call have gone out, and no logout was started. *)
Theorem network_failure_clears_without_logout
    (w : World) (c : Config) code (r401 : AxiosResponse) message
    (f : Failure) (rest : list Reply) :
  _retry c = false →
  isRefreshing w = false →
  status r401 = 401 →
  script w = Rejects (AxiosFailure code (Some r401) message)
             :: Rejects f :: rest →
  network_level f →
  let sent := request_interceptor c w in
  let refresh := request_interceptor (post "/auth/refresh") w in
  let '(result, w') := api c w in
  user (store w') = None ∧
  accessToken (store w') = None ∧
  isAuthenticated (store w') = false ∧
  wire w' = wire w ++ [sent; refresh] ∧
  spawned w' = spawned w ∧
  url refresh = "/auth/refresh".
Proof.
  intros Hc Hw Hr Hs Hf sent refresh. rewrite api_eq. subst sent refresh.
  apply (is_network_error_thrown f
           (request_interceptor (post "/auth/refresh") w)) in Hf.
  rewrite <- is_network_error_passed in Hf.
  world w c.
  all: rewrite Hr; simpl; stamps.
  all: unfold on_refresh_settled.
  all: rewrite Hf; simpl.
  all: by rewrite <- !app_assoc.
Qed.

(** C3. A request that already carries the retry mark and is rejected
    with 401 goes on the wire that once and its error reaches the caller
    as it is: nothing else is sent and nothing else in the world
    changes. Hence, for any request in any world and whatever the
    transport answers (so also when every refresh is rejected), the
    client sends the request, then at most the refresh call, then at
    most one resubmission, which carries the mark. *)
Theorem retried_request_is_not_retried_again
    (w : World) (c : Config) code (r401 : AxiosResponse) message
    (rest : list Reply) :
  _retry c = true →
  status r401 = 401 →
  script w = Rejects (AxiosFailure code (Some r401) message) :: rest →
  let sent := request_interceptor c w in
  on_rejected_enter (AxiosError code (Some r401) message sent) w
    = (PassThrough (AxiosError code (Some r401) message sent), w) ∧
  api c w = (Rejected (AxiosError code (Some r401) message sent),
             with_script rest (send sent w)) ∧
  ∀ (c0 : Config) (w0 : World),
    let first := request_interceptor c0 w0 in
    let refresh := request_interceptor (post "/auth/refresh") w0 in
    let w' := snd (api c0 w0) in
    wire w' = wire w0 ++ [first] ∨
    wire w' = wire w0 ++ [first; refresh] ∨
    ∃ again, wire w' = wire w0 ++ [first; refresh; again] ∧
             _retry again = true ∧ url again = url c0 ∧
             method again = method c0.
Proof.
  intros Hc Hr Hs sent. split; [|split].
  - apply enter_retried. subst sent. by rewrite retry_request_interceptor.
  - rewrite api_eq. fold sent. unfold transport.
    change (script (send sent w)) with (script w). rewrite Hs.
    cbv beta iota zeta. cbn [thrown].
    rewrite enter_retried; [done|].
    subst sent. by rewrite retry_request_interceptor.
  - clear. intros c0 w0 first refresh w'. subst first refresh w'.
    rewrite api_eq. cbv zeta. rewrite transport_eq.
    destruct (script w0) as [|[r|f] sc]; simpl; [by left..|].
    destruct (on_rejected_enter _ _) as [[e|o] w2] eqn:He.
    { apply enter_pass in He as [_ ->]. by left. }
    apply enter_await in He
      as (Hfl & -> & Ho & code & response & message & c & Hth & ->).
    right. rewrite (surjective_pairing (once passed _ _)), once_world.
    destruct (settled _) as [[err|r]|]; simpl.
    + left. unfold on_refresh_settled.
      destruct (is_network_error err); simpl; by rewrite <- !app_assoc.
    + right. rewrite once_world. simpl. eexists. split; [|split; [|split]].
      * by rewrite <- !app_assoc.
      * by rewrite retry_request_interceptor.
      * rewrite url_request_interceptor. simpl.
        destruct f; simplify_eq/=. apply url_request_interceptor.
      * rewrite method_request_interceptor. simpl.
        destruct f; simplify_eq/=. apply method_request_interceptor.
    + left. by rewrite <- !app_assoc.
Qed.

(** C5, as the code has it. A request rejected with 401 while a refresh
    is in flight is marked and its error goes straight to its caller:
    the handler changes nothing else, sends nothing, and does not
    suspend, so the request is neither queued behind the refresh nor
    resubmitted. *)
Theorem unauthorized_during_refresh_is_rejected_at_once
    (w : World) (c : Config) code (r401 : AxiosResponse) message
    (rest : list Reply) :
  _retry c = false →
  isRefreshing w = true →
  status r401 = 401 →
  script w = Rejects (AxiosFailure code (Some r401) message) :: rest →
  let sent := request_interceptor c w in
  let error := AxiosError code (Some r401) message sent in
  let marked := AxiosError code (Some r401) message (with_retry sent) in
  on_rejected_enter error w = (PassThrough marked, w) ∧
  api c w = (Rejected marked, with_script rest (send sent w)) ∧
  ∀ s : System,
    isRefreshing (world s) = true →
    ∃ s', step (RequestRejected error) s = Some s' ∧
          world s' = world s ∧ awaiting s' = awaiting s.
Proof.
  intros Hc Hw Hr Hs sent error marked.
  assert (∀ w1, isRefreshing w1 = true →
                on_rejected_enter error w1 = (PassThrough marked, w1)) as He.
  { intros w1 Hw1. rewrite enter_while_refreshing by done.
    unfold passed, error, unauthorized_first, sent.
    by rewrite Hr, retry_request_interceptor, Hc. }
  split; [by apply He|split].
  - rewrite api_eq. cbv zeta. fold sent. rewrite transport_eq, Hs.
    cbn [head tail thrown]. fold error.
    by rewrite (He (with_script rest (send sent w)) Hw).
  - intros s Hws. eexists. unfold step. rewrite (He (world s) Hws).
    split; [reflexivity|done].
Qed.

(** ** Interleaved handlers *)

Lemma isRefreshing_settled o outcome w :
  isRefreshing (snd (on_refresh_settled o outcome w)) = false.
Proof.
  unfold on_refresh_settled. destruct outcome as [err|r]; [|done].
  by destruct (is_network_error err).
Qed.

Lemma step_guarded e s s' : guarded s → step e s = Some s' → guarded s'.
Proof.
  unfold guarded. intros Hg.
  destruct e as [error|i outcome|st]; simpl.
  - destruct (on_rejected_enter error (world s)) as [[e|o] w] eqn:He.
    + apply enter_pass in He as [_ ->]. by intros [= <-].
    + apply enter_await in He as (Hfl & -> & _). intros [= <-]. simpl.
      rewrite Hfl in Hg. rewrite length_app, Hg. done.
  - destruct (awaiting s !! i) as [o|] eqn:Hi; [|done].
    intros [= <-]. simpl.
    pose proof (isRefreshing_settled o outcome (world s)) as Hfl.
    apply lookup_lt_Some in Hi.
    destruct (isRefreshing (world s)); [|lia].
    destruct (awaiting s) as [|o1 [|o2 os]]; simpl in *; try lia.
    assert (i = 0%nat) as -> by lia. simpl.
    destruct (on_refresh_settled _ _ _) as [[o'|err] w']; simpl in *;
      by rewrite Hfl.
  - by intros [= <-].
Qed.

Lemma run_guarded events s s' : guarded s → run events s = Some s' → guarded s'.
Proof.
  revert s. induction events as [|e events IH]; intros s Hg; simpl.
  - by intros [= <-].
  - destruct (step e s) as [s1|] eqn:He; [|done].
    apply IH. by eapply step_guarded.
Qed.

(** C4, as the code has it. The flag guards the refresh calls of the
    401 handler. From a state where no handler awaits and
    [isRefreshing] is false, whatever rejections and refresh outcomes
    arrive and in whatever order: at most one handler awaits its
    refresh call, and one does exactly when [isRefreshing] is true. The
    handler reads and raises the flag in the one uninterrupted run up
    to its first [await], and it sends its [POST /auth/refresh] in that
    run and only then; so a rejection that arrives while such a call is
    outstanding sends nothing and suspends no second handler, and when
    the call settles the flag is down and no handler awaits. *)
Theorem at_most_one_refresh_outstanding
    (events : list Event) (s0 s : System) :
  awaiting s0 = [] →
  isRefreshing (world s0) = false →
  run events s0 = Some s →
  (length (awaiting s) ≤ 1)%nat ∧
  (isRefreshing (world s) = true ↔ awaiting s ≠ []) ∧
  (∀ error w o w',
     on_rejected_enter error w = (AwaitRefresh o, w') →
     isRefreshing w = false ∧ isRefreshing w' = true) ∧
  (∀ error s',
     awaiting s ≠ [] →
     step (RequestRejected error) s = Some s' →
     awaiting s' = awaiting s ∧ wire (world s') = wire (world s)) ∧
  (∀ error s',
     step (RequestRejected error) s = Some s' →
     (awaiting s' = awaiting s ∧ wire (world s') = wire (world s) ∧
      isRefreshing (world s') = isRefreshing (world s)) ∨
     (awaiting s = [] ∧ isRefreshing (world s) = false ∧
      isRefreshing (world s') = true ∧
      ∃ originalRequest refresh,
        awaiting s' = [originalRequest] ∧
        wire (world s') = wire (world s) ++ [refresh] ∧
        method refresh = "post" ∧ url refresh = "/auth/refresh")) ∧
  (∀ i outcome s',
     step (RefreshSettled i outcome) s = Some s' →
     awaiting s' = [] ∧ isRefreshing (world s') = false).
Proof.
  intros Ha Hfl Hrun.
  assert (guarded s) as Hg.
  { eapply run_guarded; [|done]. unfold guarded. by rewrite Ha, Hfl. }
  unfold guarded in Hg.
  split; [|split; [|split; [|split; [|split]]]].
  - destruct (isRefreshing (world s)); lia.
  - destruct (isRefreshing (world s)), (awaiting s); simpl in *;
      split; done.
  - intros error w o w' He.
    by apply enter_await in He as (-> & -> & _).
  - intros error s' Hne. simpl.
    destruct (isRefreshing (world s)) eqn:Hs;
      [|by destruct (awaiting s)].
    rewrite enter_while_refreshing by done. by intros [= <-].
  - intros error s'. simpl.
    destruct (on_rejected_enter error (world s)) as [[e|o] w1] eqn:He.
    + apply enter_pass in He as [_ ->]. intros [= <-]. by left.
    + apply enter_await in He as (Hw & -> & _). intros [= <-]. right.
      rewrite Hw in Hg. destruct (awaiting s); [|done]. simpl.
      repeat split; try done. eexists _, _. split; [done|].
      split; [done|].
      by rewrite method_request_interceptor, url_request_interceptor.
  - intros i outcome s' Hstep.
    assert (guarded s') as Hg'.
    { eapply step_guarded; [|done]. done. }
    unfold guarded in Hg'. simpl in Hstep.
    destruct (awaiting s !! i) as [o|] eqn:Hi; [|done].
    injection Hstep as <-. simpl in *.
    pose proof (isRefreshing_settled o outcome (world s)) as Hd.
    assert (isRefreshing
              (match on_refresh_settled o outcome (world s) with
               | (Resubmit originalRequest, w) =>
                   send (request_interceptor originalRequest w) w
               | (Propagate _, w) => w
               end) = false) as Hdown.
    { by destruct (on_refresh_settled _ _ _) as [[o'|err] w1]. }
    rewrite Hdown in Hg'. split; [|done].
    by destruct (delete i (awaiting s)).
Qed.

(** ** What the client leaves alone, and when it settles *)

Lemma settled_frame o outcome w r w' :
  on_refresh_settled o outcome w = (r, w') →
  console w' = console w ∧ wire w' = wire w ∧ script w' = script w ∧
  isLoading (store w') = isLoading (store w) ∧
  (isAuthenticated (store w) = false → isAuthenticated (store w') = false).
Proof.
  unfold on_refresh_settled. destruct outcome as [err|resp].
  - destruct (is_network_error err); by intros [= <- <-].
  - by intros [= <- <-].
Qed.

Lemma api_frame c w :
  let w' := snd (api c w) in
  console w' = console w ∧
  isLoading (store w') = isLoading (store w) ∧
  (isAuthenticated (store w) = false → isAuthenticated (store w') = false) ∧
  ∃ more, wire w' = wire w ++ request_interceptor c w :: more.
Proof.
  rewrite api_eq. cbv zeta. rewrite transport_eq.
  destruct (script w) as [|[r|f] sc]; simpl; [by eauto..|].
  destruct (on_rejected_enter _ _) as [[e|o] w2] eqn:He.
  { apply enter_pass in He as [_ ->]. simpl. eauto. }
  apply enter_await in He as (_ & -> & _).
  rewrite (surjective_pairing (once passed _ _)), once_world.
  destruct (settled _) as [outcome|]; simpl.
  2: { repeat split; [done|]. rewrite <- !app_assoc. simpl. eauto. }
  destruct (on_refresh_settled _ _ _) as [[o'|err] w3] eqn:Hr;
    apply settled_frame in Hr as (Hc & Hwi & _ & Hl & Ha); simpl in *.
  - rewrite once_world. simpl. rewrite Hc, Hl, Hwi.
    repeat split; [done|]. rewrite <- !app_assoc. simpl. eauto.
  - rewrite Hc, Hl, Hwi.
    repeat split; [done|]. rewrite <- !app_assoc. simpl. eauto.
Qed.

(** The client leaves a promise pending only when the transport has
    stopped answering; three replies are always enough. *)
Lemma api_pending c w :
  fst (api c w) = Pending → (length (script w) < 3)%nat.
Proof.
  rewrite api_eq. cbv zeta. rewrite transport_eq.
  destruct (script w) as [|[r|f] sc]; simpl; [lia|done|].
  destruct (on_rejected_enter _ _) as [[e|o] w2] eqn:He; [done|].
  apply enter_await in He as (_ & -> & _).
  rewrite (surjective_pairing (once passed _ _)), once_world, once_answer.
  simpl. destruct sc as [|[r2|f2] sc]; simpl; [lia| |].
  - rewrite (surjective_pairing (once id _ _)), once_answer. simpl.
    destruct sc as [|[r3|f3] sc]; simpl; [lia|done..].
  - done.
Qed.

Lemma logout_frame w :
  let w' := snd (logout w) in
  errors (console w') = errors (console w) ∧
  isLoading (store w') = isLoading (store w) ∧
  (isAuthenticated (store w) = false → isAuthenticated (store w') = false).
Proof.
  unfold logout, authApi_logout.
  pose proof (api_frame (post "/auth/logout") w) as (Hc & Hl & Ha & _).
  destruct (api _ w) as [[r|err|] w1]; simpl in *.
  - by rewrite Hc.
  - unfold errors. rewrite List.filter_app, Hc. simpl.
    by rewrite app_nil_r.
  - by rewrite Hc.
Qed.

Lemma settle_frame n w :
  errors (console (settle n w)) = errors (console w) ∧
  isLoading (store (settle n w)) = isLoading (store w) ∧
  (isAuthenticated (store w) = false →
   isAuthenticated (store (settle n w)) = false).
Proof.
  revert w. induction n as [|n IH]; intros w; simpl; [done|].
  destruct (spawned w) as [|[] ts]; [done|]. simpl.
  destruct (IH (snd (logout (with_spawned ts w)))) as (Hc & Hl & Ha).
  destruct (logout_frame (with_spawned ts w)) as (Hc' & Hl' & Ha').
  simpl in *. rewrite Hc, Hl, Hc', Hl'. auto.
Qed.

(** C7. When the refresh call is rejected and not at network level, the
    handler starts the store's [logout] and does not wait for it. That
    [logout] sends the logout request, and once the request has settled,
    fulfilled or rejected alike, the store is cleared: no user, no
    access token, not authenticated. With three replies still to come
    from the transport the request does settle. *)
Theorem refresh_rejection_starts_logout
    (w : World) (c : Config) code (r401 : AxiosResponse) message
    (f : Failure) (rest : list Reply) :
  _retry c = false →
  isRefreshing w = false →
  status r401 = 401 →
  script w = Rejects (AxiosFailure code (Some r401) message)
             :: Rejects f :: rest →
  ¬ network_level f →
  spawned (snd (api c w)) = spawned w ++ [LogoutTask] ∧
  ∀ w2 : World,
    run_task LogoutTask w2 = logout w2 ∧
    let '(called, _) := authApi_logout w2 in
    let '(p, w3) := logout w2 in
    (∃ more, wire w3
             = wire w2 ++ request_interceptor (post "/auth/logout") w2 :: more) ∧
    match called with
    | Pending => p = Pending
    | Fulfilled _ | Rejected _ =>
        p = Fulfilled tt ∧
        user (store w3) = None ∧
        accessToken (store w3) = None ∧
        isAuthenticated (store w3) = false
    end ∧
    ((3 ≤ length (script w2))%nat → called ≠ Pending).
Proof.
  intros Hc Hw Hr Hs Hf. split.
  - assert (is_network_error
              (passed (thrown f (request_interceptor (post "/auth/refresh") w)))
            = false) as Hn.
    { rewrite is_network_error_passed. apply not_true_is_false.
      by rewrite is_network_error_thrown. }
    rewrite api_eq. world w c.
    all: rewrite Hr; simpl; stamps.
    all: unfold on_refresh_settled.
    all: by rewrite Hn.
  - intros w2. split; [done|].
    unfold logout, authApi_logout.
    pose proof (api_frame (post "/auth/logout") w2) as (_ & _ & _ & Hwire).
    pose proof (api_pending (post "/auth/logout") w2) as Hp.
    destruct (api _ w2) as [[r|err|] w3]; simpl in *.
    + repeat split; done.
    + repeat split; done.
    + repeat split; [done|]. intros Hl _. specialize (Hp eq_refl). lia.
Qed.

(** ** [initAuth] *)

Lemma isExpectedError_passed e :
  isExpectedError (passed e) = isExpectedError e.
Proof.
  destruct e as [code response message c|m]; [|done].
  unfold passed. by destruct (unauthorized_first _).
Qed.

Lemma isExpectedError_unauthorized code response message c :
  status response = 401 →
  isExpectedError (AxiosError code (Some response) message c) = true.
Proof. intros H. simpl. rewrite H. by rewrite bool_decide_eq_true_2. Qed.

Lemma isExpectedError_passed_unauthorized code response message c :
  status response = 401 →
  isExpectedError (passed (AxiosError code (Some response) message c)) = true.
Proof.
  intros H. rewrite isExpectedError_passed.
  by apply isExpectedError_unauthorized.
Qed.

(** Whatever is not a first 401 leaves the client as it came. *)
Lemma api_passes (c : Config) (w : World) (reply : Reply) (rest : list Reply) :
  script w = reply :: rest →
  (∀ f, reply = Rejects f →
        unauthorized_first (thrown f (request_interceptor c w)) = false) →
  api c w
  = (match reply with
     | Fulfils response => Fulfilled response
     | Rejects f => Rejected (thrown f (request_interceptor c w))
     end,
     with_script rest (send (request_interceptor c w) w)).
Proof.
  intros Hs Hf. rewrite api_eq. cbv zeta. rewrite transport_eq, Hs.
  cbn [head tail]. destruct reply as [r|f]; [done|].
  specialize (Hf f eq_refl). unfold on_rejected_enter.
  destruct (thrown f _) as [code response message o|msg]; [|done].
  by rewrite Hf.
Qed.

(** What the client returns when the refresh call it made for a first
    401 is rejected too. *)
Lemma api_refresh_rejected c w code r401 message f rest :
  _retry c = false →
  isRefreshing w = false →
  status r401 = 401 →
  script w = Rejects (AxiosFailure code (Some r401) message)
             :: Rejects f :: rest →
  let sent := request_interceptor c w in
  let refresh := request_interceptor (post "/auth/refresh") w in
  let w1 := with_isRefreshing false (with_script rest (send refresh (send sent w))) in
  api c w
  = (Rejected (passed (thrown f refresh)),
     if is_network_error (thrown f refresh)
     then with_store (cleared (store w)) w1
     else spawn LogoutTask w1).
Proof.
  intros Hc Hw Hr Hs sent refresh w1. rewrite api_eq.
  pose proof (is_network_error_passed (thrown f refresh)) as Hn.
  subst sent refresh w1. world w c.
  all: rewrite Hr; simpl; stamps.
  all: unfold on_refresh_settled.
  all: rewrite Hn.
  all: by destruct (is_network_error _).
Qed.

(** A rejection that arrives while a refresh is in flight. *)
Lemma api_rejected_while_refreshing c w f rest :
  isRefreshing w = true →
  script w = Rejects f :: rest →
  api c w = (Rejected (passed (thrown f (request_interceptor c w))),
             with_script rest (send (request_interceptor c w) w)).
Proof.
  intros Hw Hs. rewrite api_eq. cbv zeta. rewrite transport_eq, Hs.
  cbn [head tail]. by rewrite enter_while_refreshing.
Qed.

Lemma isExpectedError_iff err :
  isExpectedError err = true ↔ expected_failure err.
Proof.
  destruct err as [code response message c|message]; simpl.
  - rewrite !orb_true_iff, !bool_decide_eq_true.
    destruct response as [r|]; simpl; split.
    + intros [[[= H]|H]|H]; eauto.
    + intros [(r' & [= <-] & H)|[H|H]]; auto. left; left. by rewrite H.
    + intros [[[=]|H]|H]; eauto.
    + intros [(r' & [=] & H)|[H|H]]; auto.
  - by rewrite bool_decide_eq_true.
Qed.

(** C8. [initAuth] sends its refresh call and settles once the
    transport answers (three replies are always enough); settled, it
    has left [isLoading] false. A fulfilled reply signs the user in.
    Whatever error the client rejects the call with, [initAuth] is
    fulfilled all the same, the store is cleared and unauthenticated,
    and [console.error] is called with that error exactly when it is
    not an expected one (a response with status 401, the code
    [ERR_NETWORK], or the message [Network Error]). By replies: a 401
    (from a server that also answers 401 to the refresh call the
    interceptor then makes, or while a refresh is in flight) and an
    unreachable server log nothing; any other rejection of the call,
    a 500 for one, is logged. The promises left running afterwards
    change neither [isLoading] nor an unauthenticated store, and print
    no error. *)
Theorem initAuth_never_stays_loading (w : World) :
  let sent := request_interceptor (post "/auth/refresh") w in
  let '(p, w') := initAuth w in
  (url sent = "/auth/refresh" ∧ ∃ more, wire w' = wire w ++ sent :: more) ∧
  ((3 ≤ length (script w))%nat → p = Fulfilled tt) ∧
  (p = Fulfilled tt → isLoading (store w') = false) ∧
  (∀ response rest,
     script w = Fulfils response :: rest →
     p = Fulfilled tt ∧ console w' = console w ∧
     user (store w') = data_user (data response) ∧
     accessToken (store w') = access_token (data response) ∧
     isAuthenticated (store w') = true ∧ isLoading (store w') = false) ∧
  (∀ err,
     fst (api (post "/auth/refresh") w) = Rejected err →
     p = Fulfilled tt ∧
     user (store w') = None ∧ accessToken (store w') = None ∧
     isAuthenticated (store w') = false ∧ isLoading (store w') = false ∧
     (expected_failure err → console w' = console w) ∧
     (¬ expected_failure err →
      console w' = console w ++ [console_error "initAuth error:" err])) ∧
  (∀ code r message rest,
     script w = Rejects (AxiosFailure code (Some r) message) :: rest →
     status r = 401 →
     isRefreshing w = true ∨
     (∃ code' r' message' rest',
        rest = Rejects (AxiosFailure code' (Some r') message') :: rest' ∧
        status r' = 401) →
     p = Fulfilled tt ∧ console w' = console w ∧
     isLoading (store w') = false ∧ isAuthenticated (store w') = false) ∧
  (∀ message rest,
     script w = Rejects (AxiosFailure (Some "ERR_NETWORK") None message)
                :: rest →
     p = Fulfilled tt ∧ console w' = console w ∧
     isLoading (store w') = false ∧ isAuthenticated (store w') = false) ∧
  (∀ code response message rest,
     script w = Rejects (AxiosFailure code response message) :: rest →
     (∀ r, response = Some r → status r ≠ 401) →
     code ≠ Some "ERR_NETWORK" →
     message ≠ "Network Error" →
     p = Fulfilled tt ∧
     console w' = console w ++
       [console_error "initAuth error:"
          (AxiosError code response message sent)] ∧
     isLoading (store w') = false ∧ isAuthenticated (store w') = false) ∧
  ∀ n,
    isLoading (store (settle n w')) = isLoading (store w') ∧
    (isAuthenticated (store w') = false →
     isAuthenticated (store (settle n w')) = false) ∧
    errors (console (settle n w')) = errors (console w').
Proof.
  intros sent.
  pose proof (api_frame (post "/auth/refresh") w) as (Hc & _ & _ & Hwire).
  pose proof (api_pending (post "/auth/refresh") w) as Hp.
  assert (∀ err, fst (api (post "/auth/refresh") w) = Rejected err →
     fst (initAuth w) = Fulfilled tt ∧
     store (snd (initAuth w))
     = {| user := None; accessToken := None;
          isAuthenticated := false; isLoading := false |} ∧
     (expected_failure err → console (snd (initAuth w)) = console w) ∧
     (¬ expected_failure err →
      console (snd (initAuth w))
      = console w ++ [console_error "initAuth error:" err])) as Hrej.
  { intros err. unfold initAuth, authApi_refresh.
    destruct (api _ w) as [[r|err'|] w1]; simpl in *; try done.
    intros [= ->]. pose proof (isExpectedError_iff err) as Hiff.
    destruct (isExpectedError err); simpl; rewrite Hc.
    - split; [done|]. split; [done|]. split; [done|].
      intros Hne. destruct Hne. by apply Hiff.
    - split; [done|]. split; [done|]. split; [|done].
      intros He. apply Hiff in He. done. }
  assert (∀ response rest,
     script w = Fulfils response :: rest →
     initAuth w
     = (Fulfilled tt,
        with_store {| user := data_user (data response);
                      accessToken := access_token (data response);
                      isAuthenticated := true; isLoading := false |}
          (with_script rest (send sent w)))) as Hful.
  { intros response rest Hs. unfold initAuth, authApi_refresh.
    by rewrite (api_passes _ _ _ _ Hs). }
  assert (fst (initAuth w) = Fulfilled tt →
          isLoading (store (snd (initAuth w))) = false) as Hload.
  { unfold initAuth, authApi_refresh.
    by destruct (api _ w) as [[r|err'|] w1]. }
  assert (fst (initAuth w) = Pending →
          fst (api (post "/auth/refresh") w) = Pending) as Hpend.
  { unfold initAuth, authApi_refresh.
    by destruct (api _ w) as [[r|err'|] w1]. }
  assert (wire (snd (initAuth w)) = wire (snd (api (post "/auth/refresh") w)))
    as Hw.
  { unfold initAuth, authApi_refresh.
    destruct (api _ w) as [[r|err'|] w1]; simpl; [done| |done].
    by destruct (negb _). }
  assert (∀ err, fst (initAuth w) = Rejected err → False) as Hnorej.
  { intros err. unfold initAuth, authApi_refresh.
    by destruct (api _ w) as [[r|err'|] w1]. }
  destruct (initAuth w) as [p w'] eqn:E. simpl in *.
  split; [|split; [|split; [|split; [|split; [|split; [|split; [|split]]]]]]].
  - split; [subst sent; apply url_request_interceptor|]. by rewrite Hw.
  - intros Hl. destruct p as [[]|err|]; [done|by destruct (Hnorej err)|].
    specialize (Hp (Hpend eq_refl)). lia.
  - done.
  - intros response rest Hs. injection (Hful _ _ Hs) as -> ->. done.
  - intros err Herr. destruct (Hrej err Herr) as (-> & -> & H1 & H2). done.
  - intros code r message rest Hs Hr Hcase.
    assert (∃ err, fst (api (post "/auth/refresh") w) = Rejected err ∧
                   expected_failure err) as (err & Herr & Hexp).
    { destruct Hcase as [Hfl|(code' & r' & message' & rest' & -> & Hr')].
      - rewrite (api_rejected_while_refreshing _ _ _ _ Hfl Hs).
        eexists. split; [reflexivity|]. apply isExpectedError_iff.
        by apply isExpectedError_passed_unauthorized.
      - destruct (isRefreshing w) eqn:Hfl.
        + rewrite (api_rejected_while_refreshing _ _ _ _ Hfl Hs).
          eexists. split; [reflexivity|]. apply isExpectedError_iff.
          by apply isExpectedError_passed_unauthorized.
        + rewrite (api_refresh_rejected (post "/auth/refresh") w _ _ _ _ _
                     eq_refl Hfl Hr Hs).
          eexists. split; [reflexivity|]. apply isExpectedError_iff.
          by apply isExpectedError_passed_unauthorized. }
    destruct (Hrej err Herr) as (-> & -> & H1 & _). by rewrite H1.
  - intros message rest Hs.
    assert (fst (api (post "/auth/refresh") w)
            = Rejected (AxiosError (Some "ERR_NETWORK") None message sent))
      as Herr.
    { rewrite (api_passes _ _ _ _ Hs); [done|]. by intros f [= <-]. }
    destruct (Hrej _ Herr) as (-> & -> & H1 & _).
    rewrite H1; [done|]. simpl. auto.
  - intros code response message rest Hs Hst Hcode Hmsg.
    assert (fst (api (post "/auth/refresh") w)
            = Rejected (AxiosError code response message sent)) as Herr.
    { rewrite (api_passes _ _ _ _ Hs); [done|]. intros f [= <-]. simpl.
      destruct response as [r|]; [|done].
      rewrite (proj2 (Z.eqb_neq _ _) (Hst r eq_refl)). done. }
    destruct (Hrej _ Herr) as (-> & -> & _ & H2).
    rewrite H2; [done|]. simpl. intros [(r & -> & Hr)|[H|H]]; [|done..].
    by apply (Hst r).
  - intros n. destruct (settle_frame n w') as (? & ? & ?). done.
Qed.

(** ** The theorems at work on concrete scenarios *)

Import FrontendExample.

(** The stale request is refreshed for and resubmitted with [t2]. *)
Lemma refresh_then_retry_once_witness :
  (∃ refresh resubmitted,
     wire (snd (api (get "/products")
            (signed_in false
               [Rejects rejected_401; Fulfils refreshed; Fulfils products])))
     = [] ++ [first_sent; refresh; resubmitted] ∧
     url refresh = "/auth/refresh" ∧
     Authorization resubmitted = Some "Bearer t2") ∧
  fst (api (get "/products")
         (signed_in false
            [Rejects rejected_401; Fulfils refreshed; Fulfils products]))
  = Fulfilled products ∧
  accessToken
    (store (snd (api (get "/products")
         (signed_in false
            [Rejects rejected_401; Fulfils refreshed; Fulfils products]))))
  = Some "t2".
Proof.
  pose proof (refresh_then_retry_once
    (signed_in false [Rejects rejected_401; Fulfils refreshed; Fulfils products])
    (get "/products") _ unauthorized _ refreshed "t2" [Fulfils products]
    eq_refl eq_refl eq_refl eq_refl ltac:(discriminate) eq_refl) as [_ H].
  destruct (api _ _) as [result w'].
  destruct H as (refresh & resubmitted & Hwire & _ & _ & _ & _ & Hurl & _
                 & _ & _ & _ & Hauth & Htoken & _ & _ & _ & _ & _ & _
                 & Hresult & _).
  split; [|split].
  - exists refresh, resubmitted. split; [exact Hwire|]. split; assumption.
  - exact Hresult.
  - exact Htoken.
Defined.

(** The server is gone when the refresh call is made. *)
Lemma refresh_failure_propagates_refresh_error_witness :
  fst (api (get "/products")
         (signed_in false [Rejects rejected_401; Rejects unreachable]))
  = Rejected (AxiosError (Some "ERR_NETWORK") None "Network Error"
                {| method := "post"; url := "/auth/refresh";
                   Authorization := Some "Bearer t1"; _retry := false |}).
Proof.
  pose proof (refresh_failure_propagates_refresh_error
    (signed_in false [Rejects rejected_401; Rejects unreachable])
    (get "/products") _ unauthorized _ unreachable []
    eq_refl eq_refl eq_refl eq_refl) as H.
  destruct (api _ _) as [result w'].
  destruct H as (Hresult & _). exact Hresult.
Defined.

(** C2, as the specification has it, fails there: the caller gets the
    network error of the refresh call, which is not the 401 error of
    its own request, marked or not. *)
Lemma refresh_failure_original_error_counterexample :
  fst (api (get "/products")
         (signed_in false [Rejects rejected_401; Rejects unreachable]))
  ≠ Rejected (unauthorized_error first_sent) ∧
  fst (api (get "/products")
         (signed_in false [Rejects rejected_401; Rejects unreachable]))
  ≠ Rejected (unauthorized_error (with_retry first_sent)).
Proof. split; discriminate. Qed.

(** A resubmitted request that is rejected again. *)
Lemma retried_request_is_not_retried_again_witness :
  api (with_retry (get "/products"))
      (signed_in false [Rejects rejected_401; Fulfils refreshed])
  = (Rejected (unauthorized_error (with_retry first_sent)),
     with_script [Fulfils refreshed]
       (send (with_retry first_sent) (signed_in false []))).
Proof.
  pose proof (retried_request_is_not_retried_again
    (signed_in false [Rejects rejected_401; Fulfils refreshed])
    (with_retry (get "/products")) _ unauthorized _ [Fulfils refreshed]
    eq_refl eq_refl eq_refl) as (_ & H & _).
  exact H.
Defined.

(** Two stale requests: the second rejection arrives while the refresh
    call of the first is outstanding. *)
Lemma at_most_one_refresh_outstanding_witness :
  ∃ s, run (take 2 both_rejected_then_refreshed) two_in_flight = Some s ∧
       awaiting s = [with_retry first_sent] ∧
       isRefreshing (world s) = true ∧
       (length (awaiting s) ≤ 1)%nat.
Proof.
  eexists. split; [reflexivity|]. split; [reflexivity|]. split; [reflexivity|].
  exact (proj1 (at_most_one_refresh_outstanding
                  (take 2 both_rejected_then_refreshed) two_in_flight _
                  eq_refl eq_refl eq_refl)).
Defined.

(** C4, as the specification has it, fails: [initAuth] sends its own
    refresh call without reading the flag. The tab has just started and
    that call is still unanswered when a login is submitted and
    rejected with 401; the handler finds [isRefreshing] false and sends
    a refresh call of its own. Two [POST /auth/refresh] are on the
    wire, neither answered: [initAuth] is pending and the handler
    awaits. *)
Lemma refresh_calls_outstanding_counterexample :
  fst (initAuth (starting [])) = Pending ∧
  wire mounted = [post "/auth/refresh"] ∧
  fst (api (post "/auth/login") mounted) = Pending ∧
  ∃ s,
    step (RequestRejected (unauthorized_error (post "/auth/login")))
         {| world := login_submitted; awaiting := [] |} = Some s ∧
    awaiting s = [with_retry (post "/auth/login")] ∧
    isRefreshing (world s) = true ∧
    script (world s) = [] ∧
    wire (world s)
    = [post "/auth/refresh"; post "/auth/login"; post "/auth/refresh"] ∧
    length (List.filter (λ c, String.eqb (url c) "/auth/refresh")
              (wire (world s))) = 2%nat.
Proof. repeat split. eexists. repeat split. Qed.

(** A 401 that arrives while another handler refreshes. *)
Lemma unauthorized_during_refresh_is_rejected_at_once_witness :
  api (get "/products/7") (signed_in true [Rejects rejected_401; Fulfils products])
  = (Rejected (unauthorized_error (with_retry second_sent)),
     with_script [Fulfils products] (send second_sent (signed_in true []))).
Proof.
  pose proof (unauthorized_during_refresh_is_rejected_at_once
    (signed_in true [Rejects rejected_401; Fulfils products])
    (get "/products/7") _ unauthorized _ [Fulfils products]
    eq_refl eq_refl eq_refl eq_refl) as (_ & H & _).
  exact H.
Defined.

(** C5, as the specification has it, fails there. Both requests are
    rejected with 401, the second while the refresh of the first is in
    flight; the refresh succeeds. Afterwards the flag is down and no
    handler is suspended, the first request has gone out a second time
    and the second request has not: one sending of it is all there is. *)
Lemma unauthorized_during_refresh_counterexample :
  ∃ s, run both_rejected_then_refreshed two_in_flight = Some s ∧
       isRefreshing (world s) = false ∧
       awaiting s = [] ∧
       wire (world s)
       = [first_sent; second_sent;
          {| method := "post"; url := "/auth/refresh";
             Authorization := Some "Bearer t1"; _retry := false |};
          {| method := "get"; url := "/products";
             Authorization := Some "Bearer t2"; _retry := true |}] ∧
       length (List.filter (λ c, String.eqb (url c) "/products/7")
                 (wire (world s))) = 1%nat.
Proof. eexists. repeat split; reflexivity. Qed.

Lemma network_failure_clears_without_logout_witness :
  isAuthenticated
    (store (snd (api (get "/products")
                   (signed_in false [Rejects rejected_401; Rejects unreachable]))))
  = false ∧
  accessToken
    (store (snd (api (get "/products")
                   (signed_in false [Rejects rejected_401; Rejects unreachable]))))
  = None ∧
  wire (snd (api (get "/products")
               (signed_in false [Rejects rejected_401; Rejects unreachable])))
  = [first_sent;
     {| method := "post"; url := "/auth/refresh";
        Authorization := Some "Bearer t1"; _retry := false |}] ∧
  spawned (snd (api (get "/products")
               (signed_in false [Rejects rejected_401; Rejects unreachable])))
  = [].
Proof.
  assert (network_level unreachable) as Hn.
  { exists (Some "ERR_NETWORK"), None, "Network Error".
    split; [reflexivity|right; reflexivity]. }
  pose proof (network_failure_clears_without_logout
    (signed_in false [Rejects rejected_401; Rejects unreachable])
    (get "/products") _ unauthorized _ unreachable []
    eq_refl eq_refl eq_refl eq_refl Hn) as H.
  destruct (api _ _) as [result w'].
  destruct H as (_ & Ht & Ha & Hw & Hs & _).
  repeat split; assumption.
Defined.

(** The refresh token has expired as well: the refresh call gets a 401. *)
Lemma refresh_rejection_starts_logout_witness :
  spawned (snd (api (get "/products")
                  (signed_in false
                     [Rejects rejected_401; Rejects rejected_401;
                      Fulfils products])))
  = [LogoutTask].
Proof.
  assert (¬ network_level rejected_401) as Hn.
  { intros (code & response & message & Heq & [H|H]);
      injection Heq as <- <- <-; discriminate H. }
  exact (proj1 (refresh_rejection_starts_logout
    (signed_in false
       [Rejects rejected_401; Rejects rejected_401; Fulfils products])
    (get "/products") _ unauthorized _ rejected_401 [Fulfils products]
    eq_refl eq_refl eq_refl eq_refl Hn)).
Defined.

(** The tab starts without a refresh cookie: the refresh call and the
    one the interceptor makes get a 401, the logout gets a 200. And
    the tab starts while the server answers 500. *)
Lemma initAuth_never_stays_loading_witness :
  fst (initAuth (starting [Rejects rejected_401; Rejects rejected_401;
                           Fulfils products]))
  = Fulfilled tt ∧
  console (snd (initAuth (starting [Rejects rejected_401; Rejects rejected_401;
                                    Fulfils products])))
  = [] ∧
  console (snd (initAuth (starting [Rejects internal_error])))
  = [console_error "initAuth error:"
       (thrown internal_error (post "/auth/refresh"))].
Proof.
  pose proof (initAuth_never_stays_loading
    (starting [Rejects rejected_401; Rejects rejected_401;
               Fulfils products])) as H.
  pose proof (initAuth_never_stays_loading
    (starting [Rejects internal_error])) as H'.
  cbv zeta in H, H'.
  destruct (initAuth (starting [Rejects rejected_401; _; _])) as [p w'].
  destruct (initAuth (starting [Rejects internal_error])) as [p2 w2].
  destruct H as (_ & _ & _ & _ & _ & Hquiet & _).
  destruct H' as (_ & _ & _ & _ & _ & _ & _ & Hloud & _).
  destruct (Hquiet _ unauthorized _ _ eq_refl eq_refl) as (Hp & Hc & _).
  { right. by exists (Some "ERR_BAD_REQUEST"), unauthorized,
                     "Request failed with status code 401", [Fulfils products]. }
  destruct (Hloud (Some "ERR_BAD_RESPONSE")
              (Some {| status := 500; data := no_data |})
              "Request failed with status code 500" [] eq_refl)
    as (_ & Hc2 & _).
  { by intros r [= <-]. }
  { discriminate. }
  { discriminate. }
  split; [exact Hp|]. split; [exact Hc|exact Hc2].
Defined.

End FrontendFacts.

(** * Further properties *)

(** ** The auth service, its controller and a client's cookies *)
Module AuthFacts.
Import Backend AuthController.

Section Service.
Context {Db : Type} `{!UsersService Db, !JwtService, !Bcrypt}.
Variable env : Env.

(** X1. A [login] that fails says [Invalid credentials] whether the
    email is unknown or the password is wrong, and queues no cookie; it
    fails exactly when there is no user with that email whose stored
    hash [compare] accepts. *)
Theorem login_failure_is_uniform dto res db e res' :
  Backend.login env dto res db = (inl e, res') →
  e = UnauthorizedException "Invalid credentials" ∧
  res' = res ∧
  ∀ u, findByEmail (login_email dto) db = Some u →
       compare (login_password dto) (password u) = false.
Proof.
  unfold Backend.login.
  destruct (findByEmail _ db) as [u|]; [|by intros [= <- <-]].
  destruct (compare _ _) eqn:Hc; [done|]. simpl.
  intros [= <- <-]. repeat split. by intros ? [= <-].
Qed.

(** X2. A [register] that fails says [Email already exists], and then
    the email was taken, no user was created and no cookie queued; a
    [register] that returns found the email free and left the store as
    [create] made it. *)
Theorem register_conflict_changes_nothing dto res db outcome res' db' :
  Backend.register env dto res db = (outcome, res', db') →
  match outcome with
  | inl e =>
      e = ConflictException "Email already exists" ∧
      res' = res ∧ db' = db ∧
      is_Some (findByEmail (register_email dto) db)
  | inr result =>
      findByEmail (register_email dto) db = None ∧
      db' = snd (create (register_email dto)
                        (hash (register_password dto) 10) db)
  end.
Proof.
  unfold Backend.register.
  destruct (findByEmail _ db) as [u|] eqn:Hf.
  - intros [= <- <- <-]. eauto.
  - destruct (create _ _ db) as [u db1]. by intros [= <- <- <-].
Qed.

(** X3. [refresh] fails with one of two messages: [No refresh token
    provided] when the cookie is missing or empty, [Invalid refresh
    token] otherwise. The [User not found] thrown inside the [try] never
    leaves it: a token that verifies for a user who is gone is answered
    [Invalid refresh token]. *)
Theorem refresh_failures req db :
  (∀ e, Backend.refresh env req db = inl e →
     let token := cookies req ≫= (λ c, c !! "refresh_token") in
     (truthy token = false ∧
      e = UnauthorizedException "No refresh token provided") ∨
     (truthy token = true ∧
      e = UnauthorizedException "Invalid refresh token")) ∧
  (∀ token payload,
     cookies req ≫= (λ c, c !! "refresh_token") = Some token →
     token ≠ "" →
     verifyAsync token (JWT_REFRESH_SECRET env) = Some payload →
     findById (sub payload) db = None →
     Backend.refresh env req db
     = inl (UnauthorizedException "Invalid refresh token")).
Proof.
  unfold Backend.refresh. split.
  - intros e. destruct (truthy _) eqn:Ht; simpl.
    + destruct (verifyAsync _ _) as [payload|]; simpl;
        [destruct (findById _ db); simpl|]; intros [= <-]; by right.
    + intros [= <-]. by left.
  - intros token payload -> Hne Hv Hf. simpl.
    rewrite (proj2 (String.eqb_neq token "") Hne). simpl.
    by rewrite Hv; simpl; rewrite Hf.
Qed.

(** X4. Registering and then logging in with the same credentials
    succeeds and returns the same user object, given that the store
    finds the user it has just created, with the hash it was given, and
    that [compare] accepts a password against its own hash. *)
Theorem register_then_login dto res db result res1 db1 u res2 :
  Backend.register env dto res db = (inr result, res1, db1) →
  findByEmail (register_email dto) db1 = Some u →
  create (register_email dto) (hash (register_password dto) 10) db = (u, db1) →
  password u = hash (register_password dto) 10 →
  compare (register_password dto) (hash (register_password dto) 10) = true →
  ∃ result2 res2',
    Backend.login env {| login_email := register_email dto;
                         login_password := register_password dto |} res2 db1
    = (inr result2, res2') ∧
    user result2 = user result.
Proof.
  intros Hr Hf Hc Hp Hcmp. unfold Backend.register in Hr.
  destruct (findByEmail _ db); [done|]. rewrite Hc in Hr.
  injection Hr as <- _. unfold Backend.login. simpl.
  rewrite Hf, Hp, Hcmp. simpl. eauto.
Qed.

(** *** A client's cookies across the endpoints *)

Lemma request_with_after_cookie (jar : Jar) name value :
  cookies (request_with (drop name "/" jar ++ [(name, "/", value)]))
    ≫= (λ c, c !! name) = Some value.
Proof.
  unfold request_with. simpl.
  induction jar as [|[[n p] v] jar IH]; simpl.
  - apply lookup_insert_eq.
  - unfold same_cookie at 1. simpl.
    destruct (String.eqb_spec n name) as [->|Hn]; simpl.
    + destruct (String.eqb_spec p "/") as [->|Hp]; simpl; [done|].
      by rewrite (proj2 (String.eqb_neq p "/") Hp).
    + destruct (String.eqb_spec p "/") as [->|Hp]; simpl; [|done].
      by rewrite lookup_insert_ne.
Qed.

Lemma request_with_after_clear (jar : Jar) name :
  cookies (request_with (drop name "/" jar)) ≫= (λ c, c !! name) = None.
Proof.
  unfold request_with. simpl.
  induction jar as [|[[n p] v] jar IH]; simpl; [done|].
  unfold same_cookie at 1. simpl.
  destruct (String.eqb_spec n name) as [->|Hn]; simpl.
  - destruct (String.eqb_spec p "/") as [->|Hp]; simpl; [done|].
    by rewrite (proj2 (String.eqb_neq p "/") Hp).
  - destruct (String.eqb_spec p "/") as [->|Hp]; simpl; [|done].
    by rewrite lookup_insert_ne.
Qed.

Lemma receive_cookie (jar : Jar) name value options res :
  receive jar (cookie name value options res)
  = drop name (default "/" (path options)) (receive jar res)
    ++ [(name, default "/" (path options), value)].
Proof. unfold receive, cookie. simpl. by rewrite foldl_app. Qed.

Lemma receive_clearCookie (jar : Jar) name options res :
  receive jar (clearCookie name options res)
  = drop name (default "/" (path options)) (receive jar res).
Proof. unfold receive, clearCookie. simpl. by rewrite foldl_app. Qed.

(** X5. The cookie a successful [login] queues is the one [refresh]
    accepts: a client that applies the response and calls [refresh]
    gets a new access token and the [id] and [email] of the user who
    logged in, given that the refresh token is not the empty string,
    that it verifies to its payload under the refresh secret and that
    the user is still found by [id]. *)
Theorem login_then_refresh dto res db result res' u (jar : Jar) :
  Backend.login env dto res db = (inr result, res') →
  findByEmail (login_email dto) db = Some u →
  let payload := {| sub := id u; payload_email := email u |} in
  let refresh_token :=
    sign payload (Some {| secret := JWT_REFRESH_SECRET env;
                          expiresIn := "7d" |}) in
  refresh_token ≠ "" →
  verifyAsync refresh_token (JWT_REFRESH_SECRET env) = Some payload →
  findById (id u) db = Some u →
  Backend.refresh env (request_with (receive jar res')) db
  = inr {| access_token := sign payload None;
           user := <["id" := JNum (id u)]>
                   (<["email" := JStr (email u)]> ∅) |}.
Proof.
  intros Hl Hf payload refresh_token Hne Hv Hid.
  unfold Backend.login in Hl. rewrite Hf in Hl.
  destruct (compare _ _); [|done]. simpl in Hl. injection Hl as _ <-.
  unfold Backend.refresh. rewrite receive_cookie.
  change (default "/" (path refresh_cookie_options)) with "/".
  rewrite request_with_after_cookie.
  fold payload. unfold refresh_sign_options. fold refresh_token.
  unfold truthy. rewrite (proj2 (String.eqb_neq refresh_token "") Hne).
  simpl. rewrite Hv. simpl. by rewrite Hid.
Qed.

(** X6. The logout endpoint clears the cookie under the name and path
    it was set with: whatever cookies the client held and whatever was
    queued on the response before, once the client has applied the
    response its next [refresh] is refused with [No refresh token
    provided]. The body it sends is [{}]: the handler passes the
    promise of the service method to [res.json], so the message
    [Logged out successfully] is not in it. *)
Theorem logout_then_refresh (jar : Jar) (res : Res) (db : Db) :
  Backend.refresh env
    (request_with (receive jar (response (AuthController.logout res)))) db
  = inl (UnauthorizedException "No refresh token provided") ∧
  body (AuthController.logout res) = EmptyObject ∧
  fst (Backend.logout res) = "Logged out successfully".
Proof.
  split; [|done].
  unfold Backend.refresh, AuthController.logout, Backend.logout, json.
  cbn [response]. rewrite receive_clearCookie. cbn [path default].
  by rewrite request_with_after_clear.
Qed.

End Service.
End AuthFacts.

(** ** The client, the store and the pages *)
Module ClientFacts.
Import Frontend FrontendFacts.

(** X7. The client calls its rejection handler and the handler calls
    the client, but never more than two levels deep: from two on, the
    nesting allowed makes no difference to any request in any world,
    and there is always a result. *)
Theorem client_nesting_is_bounded (n m : nat) (c : Config) (w : World) :
  (2 ≤ n)%nat → (2 ≤ m)%nat →
  request n c w = request m c w ∧ is_Some (request n c w).
Proof.
  intros Hn Hm.
  destruct n as [|[|n]]; [lia..|]. destruct m as [|[|m]]; [lia..|].
  rewrite !request_enough_fuel. eauto.
Qed.

(** X8. A request the transport answers is never left pending by the
    client: with three replies to come it settles, and it uses up at
    most three of them. *)
Theorem client_settles (c : Config) (w : World) :
  (3 ≤ length (script w))%nat →
  fst (api c w) ≠ Pending ∧
  (length (script w) ≤ length (script (snd (api c w))) + 3)%nat.
Proof.
  intros Hl. split.
  { intros Hp. apply api_pending in Hp. lia. }
  rewrite api_eq. cbv zeta. rewrite transport_eq.
  destruct (script w) as [|[r|f] sc]; simpl; [lia..|].
  destruct (on_rejected_enter _ _) as [[e|o] w2] eqn:He.
  { apply enter_pass in He as [_ ->]. simpl. lia. }
  apply enter_await in He as (_ & -> & _).
  rewrite (surjective_pairing (once passed _ _)), once_world.
  destruct (settled _) as [outcome|]; simpl.
  2: { destruct sc; simpl; lia. }
  destruct (on_refresh_settled _ _ _) as [[o'|err] w3] eqn:Hr;
    apply settled_frame in Hr as (_ & _ & Hs & _); simpl in *.
  - rewrite once_world. simpl. rewrite Hs.
    destruct sc as [|? [|? sc]]; simpl; lia.
  - rewrite Hs. destruct sc; simpl; lia.
Qed.

(** X9. Whatever is not a first 401 passes through the client as it
    is: a fulfilled response, or a rejection whose error has no
    response, a status other than 401, or a request already marked,
    reaches the caller unchanged, and all that has happened is that the
    request went out and the reply was used. No refresh call is made,
    and the store and [isRefreshing] are untouched. *)
Theorem other_replies_pass_through
    (c : Config) (w : World) (reply : Reply) (rest : list Reply) :
  script w = reply :: rest →
  (∀ f, reply = Rejects f →
        unauthorized_first (thrown f (request_interceptor c w)) = false) →
  api c w
  = (match reply with
     | Fulfils response => Fulfilled response
     | Rejects f => Rejected (thrown f (request_interceptor c w))
     end,
     with_script rest (send (request_interceptor c w) w)).
Proof. apply api_passes. Qed.

(** A first 401 met with no refresh in flight puts the refresh call on
    the wire right after the request. *)
Lemma api_unauthorized_wire c w code r401 message rest :
  _retry c = false →
  isRefreshing w = false →
  status r401 = 401 →
  script w = Rejects (AxiosFailure code (Some r401) message) :: rest →
  ∃ more,
    wire (snd (api c w))
    = wire w ++ [request_interceptor c w;
                 request_interceptor (post "/auth/refresh") w] ++ more.
Proof.
  intros Hc Hw Hr Hs. rewrite api_eq. cbv zeta. rewrite transport_eq, Hs.
  cbn [head tail thrown]. unfold on_rejected_enter, unauthorized_first.
  rewrite Hr, retry_request_interceptor, Hc. simpl. rewrite Hw. simpl.
  rewrite (surjective_pairing (once passed _ _)), once_world.
  destruct (settled _) as [outcome|]; simpl.
  2: { exists []. by rewrite <- !app_assoc. }
  destruct (on_refresh_settled _ _ _) as [[o'|err] w3] eqn:Ho;
    apply settled_frame in Ho as (_ & Hwi & _); simpl in *.
  - rewrite once_world. simpl. rewrite Hwi. eexists [_].
    by rewrite <- !app_assoc.
  - rewrite Hwi. exists []. by rewrite <- !app_assoc.
Qed.

Import AuthStore.

(** X10. A fulfilled login request puts the user and the access token
    of the response in the store and sets [isAuthenticated]; [isLoading]
    keeps its value. Nothing but the login request has gone out, and
    when the token is a non-empty string every later request is stamped
    with it. *)
Theorem login_fulfilled credentials (w : World) response rest :
  script w = Fulfils response :: rest →
  login credentials w
  = (Fulfilled tt,
     with_store {| user := data_user (data response);
                   accessToken := access_token (data response);
                   isAuthenticated := true;
                   isLoading := Frontend.isLoading (store w) |}
       (with_script rest (send (request_interceptor (post "/auth/login") w) w))) ∧
  ∀ c, truthy (access_token (data response)) = true →
       Authorization (request_interceptor c (snd (login credentials w)))
       = Some (bearer (access_token (data response))).
Proof.
  intros Hs. unfold login, authApi_login.
  rewrite (api_passes _ _ _ _ Hs) by done. simpl. split; [done|].
  intros c Ht. unfold request_interceptor. simpl. by rewrite Ht.
Qed.

(** X11. When the login request fails with [ERR_NETWORK] and no
    response, [login] rejects with the error [Cannot connect to server.
    Please make sure the backend is running.] in place of the axios
    error; it logs nothing and leaves the store alone, and no other
    request is made. *)
Theorem login_unreachable credentials (w : World) message rest :
  script w = Rejects (AxiosFailure (Some "ERR_NETWORK") None message) :: rest →
  login credentials w
  = (Rejected (Error cannot_connect),
     with_script rest (send (request_interceptor (post "/auth/login") w) w)).
Proof.
  intros Hs. unfold login, authApi_login.
  rewrite (api_passes _ _ _ _ Hs); [done|]. by intros f [= <-].
Qed.

(** X12. A [login] that is not fulfilled never authenticates: if the
    store was not authenticated before it is not afterwards, whatever
    the interceptor did in between; and [login] never touches
    [isLoading]. *)
Theorem failed_login_never_authenticates credentials (w : World) :
  Frontend.isLoading (store (snd (login credentials w)))
  = Frontend.isLoading (store w) ∧
  (fst (login credentials w) ≠ Fulfilled tt →
   isAuthenticated (store w) = false →
   isAuthenticated (store (snd (login credentials w))) = false).
Proof.
  unfold login, authApi_login.
  pose proof (api_frame (post "/auth/login") w) as (_ & Hl & Ha & _).
  destruct (api _ w) as [[r|err|] w1]; simpl in *.
  - done.
  - destruct (is_connection_error err); simpl; auto.
  - auto.
Qed.

(** X13. The interceptor does not exempt the login request: when it is
    rejected with 401 and no refresh is in flight, the next thing on
    the wire is a refresh call. *)
Theorem unauthorized_login_refreshes
    credentials (w : World) code r401 message rest :
  isRefreshing w = false →
  status r401 = 401 →
  script w = Rejects (AxiosFailure code (Some r401) message) :: rest →
  ∃ more,
    wire (snd (login credentials w))
    = wire w ++ [request_interceptor (post "/auth/login") w;
                 request_interceptor (post "/auth/refresh") w] ++ more.
Proof.
  intros Hw Hr Hs. unfold login, authApi_login.
  destruct (api_unauthorized_wire (post "/auth/login") w _ _ _ _
              eq_refl Hw Hr Hs) as [more Hwire].
  exists more.
  destruct (api _ w) as [[r|err|] w1]; simpl in *; [done| |done].
  by destruct (is_connection_error err).
Qed.

(** X14. [register] of the store never signs the user in. It keeps
    [isLoading], it leaves an unauthenticated store unauthenticated,
    and when the reply to the register request is anything but a first
    401 (a success included) the store is exactly as it was. *)
Theorem register_does_not_sign_in credentials (w : World) :
  Frontend.isLoading (store (snd (register credentials w)))
  = Frontend.isLoading (store w) ∧
  (isAuthenticated (store w) = false →
   isAuthenticated (store (snd (register credentials w))) = false) ∧
  (∀ reply rest,
     script w = reply :: rest →
     (∀ f, reply = Rejects f →
        unauthorized_first
          (thrown f (request_interceptor (post "/auth/register") w)) = false) →
     store (snd (register credentials w)) = store w).
Proof.
  unfold register, authApi_register. split; [|split].
  - pose proof (api_frame (post "/auth/register") w) as (_ & Hl & _).
    by destruct (api _ w) as [[r|err|] w1].
  - pose proof (api_frame (post "/auth/register") w) as (_ & _ & Ha & _).
    by destruct (api _ w) as [[r|err|] w1].
  - intros reply rest Hs Hf. rewrite (api_passes _ _ _ _ Hs Hf).
    by destruct reply.
Qed.

(** X15. Once [logout] has settled the store holds no token, so the
    request interceptor adds nothing to a request: the next requests go
    out with the headers their caller gave them. *)
Theorem no_token_after_logout (w : World) (c : Config) :
  fst (logout w) = Fulfilled tt →
  request_interceptor c (snd (logout w)) = c ∧
  isAuthenticated (store (snd (logout w))) = false.
Proof.
  unfold logout. destruct (authApi_logout w) as [[r|err|] w1]; simpl; done.
Qed.

(** X16. [initAuth] on the first reply to its refresh call. A
    fulfilled reply signs the user in with the user and token of the
    response and ends the loading state, with that one request made. A
    401 with no refresh in flight makes the interceptor send the
    refresh call a second time. *)
Theorem initAuth_first_reply (w : World) :
  (∀ response rest,
     script w = Fulfils response :: rest →
     initAuth w
     = (Fulfilled tt,
        with_store {| user := data_user (data response);
                      accessToken := access_token (data response);
                      isAuthenticated := true;
                      isLoading := false |}
          (with_script rest
             (send (request_interceptor (post "/auth/refresh") w) w)))) ∧
  (∀ code r401 message rest,
     isRefreshing w = false →
     status r401 = 401 →
     script w = Rejects (AxiosFailure code (Some r401) message) :: rest →
     ∃ more,
       wire (snd (initAuth w))
       = wire w ++ [request_interceptor (post "/auth/refresh") w;
                    request_interceptor (post "/auth/refresh") w] ++ more).
Proof.
  unfold initAuth, authApi_refresh. split.
  - intros response rest Hs. by rewrite (api_passes _ _ _ _ Hs).
  - intros code r401 message rest Hw Hr Hs.
    destruct (api_unauthorized_wire (post "/auth/refresh") w _ _ _ _
                eq_refl Hw Hr Hs) as [more Hwire].
    exists more.
    destruct (api _ w) as [[r|err|] w1]; simpl in *; [done| |done].
    by destruct (negb _).
Qed.

End ClientFacts.
(** ** The login page *)
Module LoginPageFacts.
Import Frontend FrontendFacts ClientFacts LoginPage.

(** X17. The login page navigates only to [/products] and only after
    a login that left the store authenticated, with the error cleared;
    whenever its handler has settled, the loading state is over; and it
    never changes what was typed. *)
Theorem login_page_navigates_when_authenticated (s : State) (w : World) :
  let '(p, s', navigated, w') := handleSubmit s w in
  (navigated = [] ∨
   (navigated = [{| to := "/products"; registeredEmail := None |}] ∧
    isAuthenticated (store w') = true ∧ error s' = "")) ∧
  (p = Fulfilled tt → isLoading s' = false) ∧
  email s' = email s ∧ password s' = password s.
Proof.
  unfold handleSubmit, AuthStore.login, AuthStore.authApi_login.
  destruct (api _ w) as [[r|err|] w1]; simpl.
  - split; [right|]; done.
  - destruct (AuthStore.is_connection_error err); simpl; split; auto.
  - split; [left|]; done.
Qed.

(** X18. Wrong credentials. The login request is rejected with 401;
    the interceptor tries a refresh, which the server also rejects with
    401 (an ordinary axios error: not [ERR_NETWORK], and its message
    neither [Network Error] nor one that mentions [Cannot connect to
    server]). The page shows [Invalid email or password], stops
    loading and does not navigate; underneath, the failure was logged
    and the interceptor has started a logout. *)
Theorem login_page_wrong_credentials
    (s : State) (w : World) code1 r1 message1 code2 r2 message2 rest :
  isRefreshing w = false →
  status r1 = 401 →
  status r2 = 401 →
  code2 ≠ Some "ERR_NETWORK" →
  message2 ≠ "Network Error" →
  includes "Cannot connect to server" message2 = false →
  script w = Rejects (AxiosFailure code1 (Some r1) message1)
             :: Rejects (AxiosFailure code2 (Some r2) message2) :: rest →
  let '(p, s', navigated, w') := handleSubmit s w in
  p = Fulfilled tt ∧
  error s' = "Invalid email or password" ∧
  isLoading s' = false ∧
  navigated = [] ∧
  spawned w' = spawned w ++ [LogoutTask] ∧
  ∃ err, console w' = console w ++ [console_error "Login failed:" err].
Proof.
  intros Hw H1 H2 Hcode Hmsg Hinc Hs.
  unfold handleSubmit, AuthStore.login, AuthStore.authApi_login.
  rewrite (api_refresh_rejected (post "/auth/login") w _ _ _ _ _
             eq_refl Hw H1 Hs). cbv zeta.
  cbn [thrown is_network_error].
  rewrite (bool_decide_eq_false_2 _ Hcode). cbn [orb bool_decide].
  unfold passed, unauthorized_first.
  rewrite H2, retry_request_interceptor. cbn [Z.eqb Pos.eqb andb negb post _retry].
  cbn [then_ AuthStore.is_connection_error].
  rewrite (bool_decide_eq_false_2 _ Hcode), (bool_decide_eq_false_2 _ Hmsg).
  cbn [orb]. unfold errorMessage. cbn [message_of]. rewrite Hinc.
  cbn [fmap option_fmap option_map]. rewrite H2.
  rewrite bool_decide_eq_true_2 by done.
  repeat split; eauto.
Qed.

(** X19. Server unreachable. The login request fails with
    [ERR_NETWORK] and no response: the page shows the message [Cannot
    connect to server. Please make sure the backend is running.], stops
    loading and does not navigate; only the login request has gone out
    and the store and the console are as they were. *)
Theorem login_page_server_unreachable (s : State) (w : World) message rest :
  script w = Rejects (AxiosFailure (Some "ERR_NETWORK") None message) :: rest →
  let '(p, s', navigated, w') := handleSubmit s w in
  p = Fulfilled tt ∧
  error s' = AuthStore.cannot_connect ∧
  isLoading s' = false ∧
  navigated = [] ∧
  w' = with_script rest (send (request_interceptor (post "/auth/login") w) w).
Proof.
  intros Hs. unfold handleSubmit, AuthStore.login, AuthStore.authApi_login.
  rewrite (api_passes _ _ _ _ Hs); [|by intros f [= <-]]. done.
Qed.

End LoginPageFacts.

(** ** The register page *)
Module RegisterPageFacts.
Import Frontend FrontendFacts ClientFacts RegisterPage.

(** X20. The register page sends nothing unless the two passwords are
    equal and at least six characters long: otherwise the world is
    untouched, no timer is set, the loading state is not entered, and
    the error says [Passwords do not match] (checked first) or
    [Password must be at least 6 characters]. *)
Theorem register_page_validates_first (s : State) (w : World) :
  let '(p, s', timers, w') := handleSubmit s w in
  (password s ≠ confirmPassword s →
   w' = w ∧ timers = [] ∧ isLoading s' = isLoading s ∧ success s' = false ∧
   error s' = "Passwords do not match") ∧
  (password s = confirmPassword s → (String.length (password s) < 6)%nat →
   w' = w ∧ timers = [] ∧ isLoading s' = isLoading s ∧ success s' = false ∧
   error s' = "Password must be at least 6 characters") ∧
  (wire w' ≠ wire w →
   password s = confirmPassword s ∧ (6 ≤ String.length (password s))%nat).
Proof.
  unfold handleSubmit. simpl.
  destruct (String.eqb_spec (password s) (confirmPassword s)) as [He|He];
    simpl.
  2: { repeat split; try done. }
  destruct (Nat.ltb_spec (String.length (password s)) 6) as [Hl|Hl]; simpl.
  { repeat split; try done; intros; lia. }
  destruct (AuthStore.register _ w) as [[r|err|] w1]; simpl;
    repeat split; try done; intros; lia.
Qed.

(** X21. A registration that the server accepts: the page shows
    success, clears the error, stops loading and sets one timer, two
    seconds, that navigates to [/login] with the email as
    [registeredEmail]. One request went out, to [/auth/register], and
    the store is as it was: registering does not sign in. *)
Theorem register_page_success (s : State) (w : World) response rest :
  password s = confirmPassword s →
  (6 ≤ String.length (password s))%nat →
  script w = Fulfils response :: rest →
  let '(p, s', timers, w') := handleSubmit s w in
  p = Fulfilled tt ∧
  success s' = true ∧ error s' = "" ∧ isLoading s' = false ∧
  timers = [(2000, {| to := "/login"; registeredEmail := Some (email s) |})] ∧
  w' = with_script rest
         (send (request_interceptor (post "/auth/register") w) w).
Proof.
  intros He Hl Hs. unfold handleSubmit. simpl.
  rewrite (proj2 (String.eqb_eq _ _) He). simpl.
  rewrite (proj2 (Nat.ltb_ge _ _) Hl).
  unfold AuthStore.register, AuthStore.authApi_register.
  by rewrite (api_passes _ _ _ _ Hs).
Qed.

(** X22. A registration that the server refuses with anything but a
    first 401: the error reaches the page as axios made it, and the
    page shows [Email already exists] when its message mentions [409]
    and the message itself otherwise. The page stops loading, shows no
    success and sets no timer; the store logged the failure and is
    otherwise untouched. *)
Theorem register_page_refused
    (s : State) (w : World) code response message rest :
  password s = confirmPassword s →
  (6 ≤ String.length (password s))%nat →
  script w = Rejects (AxiosFailure code response message) :: rest →
  unauthorized_first
    (AxiosError code response message
       (request_interceptor (post "/auth/register") w)) = false →
  let '(p, s', timers, w') := handleSubmit s w in
  p = Fulfilled tt ∧
  error s' = (if includes "409" message then "Email already exists"
              else message) ∧
  success s' = false ∧ isLoading s' = false ∧ timers = [] ∧
  store w' = store w ∧
  console w' = console w ++
    [console_error "Register failed:"
       (AxiosError code response message
          (request_interceptor (post "/auth/register") w))].
Proof.
  intros He Hl Hs Hu. unfold handleSubmit. simpl.
  rewrite (proj2 (String.eqb_eq _ _) He). simpl.
  rewrite (proj2 (Nat.ltb_ge _ _) Hl).
  unfold AuthStore.register, AuthStore.authApi_register.
  rewrite (api_passes _ _ _ _ Hs); [done|]. by intros f [= <-].
Qed.

End RegisterPageFacts.
(** ** The products table *)
Module PaginationFacts.
Import DataTable ProductsPage.

Lemma ceil_div_10 (t : Z) :
  10 * (ceil_div t limit - 1) < t ≤ 10 * ceil_div t limit.
Proof.
  unfold ceil_div, limit.
  pose proof (Z.div_mod (- t) 10 ltac:(lia)).
  pose proof (Z.mod_pos_bound (- t) 10 ltac:(lia)). lia.
Qed.

Section Page.
Context {Product : Type}.
Implicit Types s : State Product.

(** X23. On the products page the pagination bar is there exactly
    when there are more than ten products (and some are on display):
    with ten or fewer the table has no bar, so no buttons. *)
Theorem bar_iff_more_than_ten s table :
  products s ≠ [] →
  isLoading s = false →
  (∃ footer, render (table_props s) table = Rows (Some footer)) ↔ 10 < total s.
Proof.
  intros Hp Hl. unfold render, isLoading', data_length, totalRows',
    totalPages', manualPagination', pageCount', total'. simpl.
  rewrite Hl. destruct (products s) as [|p ps]; [done|]. simpl.
  pose proof (ceil_div_10 (total s)).
  destruct (Z.leb_spec 10 (total s)), (Z.ltb_spec 1 (ceil_div (total s) limit));
    simpl; split; try (intros [? [=]]); try lia; eauto.
Qed.

(** X24. The range the bar shows. With at least one product and the
    page between 1 and the number of pages, [startRow] to [endRow] is a
    non-empty range within [1 .. total] of at most ten rows; the last
    page ends at [total], and every other page is full and the next
    one starts right after it. *)
Theorem row_range s table :
  0 < total s →
  (1 ≤ page s ≤ ceil_div (total s) limit)%Z →
  let first := startRow' (table_props s) table in
  let last := endRow' (table_props s) table in
  (1 ≤ first ≤ last)%Z ∧ (last ≤ total s)%Z ∧ last - first < 10 ∧
  (page s = ceil_div (total s) limit → last = total s) ∧
  (page s < ceil_div (total s) limit →
   last - first = 9 ∧
   startRow' (table_props (setPage (page s + 1) s)) table = last + 1).
Proof.
  intros Ht Hp. unfold startRow', endRow', manualPagination', pageIndex',
    pageSize', total'. simpl. unfold limit in *.
  pose proof (ceil_div_10 (total s)). unfold limit in *. lia.
Qed.

(** X25. The buttons keep the page in range. With the bar on display
    and the page between 1 and the number of pages, [Next] is disabled
    on the last page and otherwise moves to the next page, [Previous]
    is disabled on page 1 and otherwise moves back one page; so the page
    stays between 1 and the number of pages, and [Next] followed by
    [Previous] returns to the same state. *)
Theorem buttons_keep_page_in_range s table :
  products s ≠ [] →
  isLoading s = false →
  10 < total s →
  (1 ≤ page s ≤ ceil_div (total s) limit)%Z →
  press_next (table_props s) table
  = (if (page s <? ceil_div (total s) limit)%Z
     then Some (OnPageChange (page s + 1)) else None) ∧
  press_previous (table_props s) table
  = (if (1 <? page s)%Z then Some (OnPageChange (page s - 1)) else None) ∧
  (∀ a, press_next (table_props s) table = Some a ∨
        press_previous (table_props s) table = Some a →
        (1 ≤ page (act a s) ≤ ceil_div (total (act a s)) limit)%Z) ∧
  (∀ a b, press_next (table_props s) table = Some a →
          press_previous (table_props (act a s)) table = Some b →
          act b (act a s) = s).
Proof.
  intros Hp Hl Ht Hpage.
  pose proof (ceil_div_10 (total s)) as Hc.
  assert (∀ q, press_next (table_props (setPage q s)) table
               = (if (q <? ceil_div (total s) limit)%Z
                  then Some (OnPageChange (q + 1)) else None) ∧
               press_previous (table_props (setPage q s)) table
               = (if (1 <? q)%Z then Some (OnPageChange (q - 1)) else None))
    as Hpress.
  { intros q. unfold press_next, press_previous, render, isLoading',
      data_length, totalRows', totalPages', manualPagination', pageCount',
      total', canNextPage, canPreviousPage, handleNextPage,
      handlePreviousPage, pageIndex'. simpl.
    rewrite Hl. destruct (products s) as [|p ps]; [done|]. simpl.
    destruct (Z.leb_spec 10 (total s)); [|lia].
    destruct (Z.ltb_spec 1 (ceil_div (total s) limit)); [|lia]. simpl.
    replace (q - 1 + 1) with q by lia. replace (q - 1 + 2) with (q + 1) by lia.
    split.
    - by destruct (q <? _)%Z.
    - destruct (Z.ltb_spec 0 (q - 1)), (Z.ltb_spec 1 q); simpl; (done || lia). }
  assert (setPage (page s) s = s) as Hs by by destruct s.
  destruct (Hpress (page s)) as [Hn Hv]. rewrite Hs in Hn, Hv.
  split; [done|]. split; [done|]. split.
  - intros a [Ha|Ha]; [rewrite Hn in Ha|rewrite Hv in Ha].
    + destruct (Z.ltb_spec (page s) (ceil_div (total s) limit)); [|done].
      injection Ha as <-. simpl. lia.
    + destruct (Z.ltb_spec 1 (page s)); [|done].
      injection Ha as <-. simpl. lia.
  - intros a b Ha Hb. rewrite Hn in Ha.
    destruct (Z.ltb_spec (page s) (ceil_div (total s) limit)); [|done].
    injection Ha as <-. simpl in Hb.
    destruct (Hpress (page s + 1)) as [_ Hv']. rewrite Hv' in Hb.
    destruct (Z.ltb_spec 1 (page s + 1)); [|lia].
    injection Hb as <-. simpl. replace (page s + 1 - 1) with (page s) by lia.
    by destruct s.
Qed.

End Page.
End PaginationFacts.

(** ** The further properties at work on concrete scenarios *)
Module AuthScenarios.
Import Backend AuthController AuthFacts BackendExample.

(** Alice mistypes her password. *)
Lemma login_failure_is_uniform_witness :
  Backend.login env {| login_email := "a@b.com"; login_password := "secret2" |}
    fresh_res [alice]
  = (inl (UnauthorizedException "Invalid credentials"), fresh_res) ∧
  ∀ u, findByEmail "a@b.com" [alice] = Some u →
       compare "secret2" (password u) = false.
Proof.
  split; [reflexivity|].
  exact (proj2 (proj2 (login_failure_is_uniform env
    {| login_email := "a@b.com"; login_password := "secret2" |}
    fresh_res [alice] (UnauthorizedException "Invalid credentials") fresh_res
    eq_refl))).
Defined.

(** Alice registers a second time. *)
Lemma register_conflict_changes_nothing_witness :
  Backend.register env alice_register fresh_res [alice]
  = (inl (ConflictException "Email already exists"), fresh_res, [alice]) ∧
  is_Some (findByEmail "a@b.com" [alice]).
Proof.
  split; [reflexivity|].
  exact (proj2 (proj2 (proj2
    (register_conflict_changes_nothing env alice_register fresh_res [alice]
       (inl (ConflictException "Email already exists")) fresh_res [alice]
       eq_refl)))).
Defined.

(** Alice's account is gone but her cookie still verifies. *)
Lemma refresh_failures_witness :
  Backend.refresh env alice_cookie []
  = inl (UnauthorizedException "Invalid refresh token").
Proof.
  refine (proj2 (refresh_failures env alice_cookie [])
            "a@b.com/7d" {| sub := 1; payload_email := "a@b.com" |}
            eq_refl _ eq_refl eq_refl).
  discriminate.
Defined.

Lemma register_then_login_witness :
  ∃ result2 res2',
    Backend.login env alice_login fresh_res [alice] = (inr result2, res2') ∧
    user result2 = delete "password" (properties alice).
Proof.
  exact (register_then_login env alice_register fresh_res [] _ _ _ alice fresh_res
           eq_refl eq_refl eq_refl eq_refl eq_refl).
Defined.

Lemma login_then_refresh_witness :
  Backend.refresh env
    (request_with (receive [] (snd (Backend.login env alice_login fresh_res [alice]))))
    [alice]
  = inr {| access_token := "a@b.com/default";
           user := <["id" := JNum 1]> (<["email" := JStr "a@b.com"]> ∅) |}.
Proof.
  refine (login_then_refresh env alice_login fresh_res [alice] _ _ alice []
            eq_refl eq_refl _ eq_refl eq_refl).
  discriminate.
Defined.

End AuthScenarios.

Module ClientScenarios.
Import Frontend FrontendExample PageExample ClientFacts.

Lemma client_nesting_is_bounded_witness :
  request 2 (get "/products")
    (signed_in false [Rejects rejected_401; Fulfils refreshed; Fulfils products])
  = request 5 (get "/products")
    (signed_in false [Rejects rejected_401; Fulfils refreshed; Fulfils products]).
Proof.
  refine (proj1 (client_nesting_is_bounded 2 5 _ _ _ _)); lia.
Defined.

Lemma client_settles_witness :
  fst (api (get "/products")
         (signed_in false
            [Rejects rejected_401; Fulfils refreshed; Rejects rejected_401]))
  ≠ Pending.
Proof.
  refine (proj1 (client_settles _ _ _)). simpl. lia.
Defined.

(** The server answers 500. *)
Lemma other_replies_pass_through_witness :
  api (get "/products") (signed_in false [Rejects server_error])
  = (Rejected (thrown server_error first_sent),
     with_script [] (send first_sent (signed_in false [Rejects server_error]))).
Proof.
  refine (other_replies_pass_through (get "/products")
            (signed_in false [Rejects server_error]) _ [] eq_refl _).
  intros f [= <-]. reflexivity.
Defined.

Lemma login_fulfilled_witness :
  isAuthenticated
    (store (snd (AuthStore.login credentials (starting [Fulfils signed]))))
  = true ∧
  accessToken
    (store (snd (AuthStore.login credentials (starting [Fulfils signed]))))
  = Some "t1".
Proof.
  destruct (login_fulfilled credentials (starting [Fulfils signed]) signed []
              eq_refl) as [H _].
  rewrite H. split; reflexivity.
Defined.

Lemma login_unreachable_witness :
  fst (AuthStore.login credentials (starting [Rejects unreachable]))
  = Rejected (Error AuthStore.cannot_connect).
Proof.
  rewrite (login_unreachable credentials (starting [Rejects unreachable])
             "Network Error" [] eq_refl).
  reflexivity.
Defined.

Lemma failed_login_never_authenticates_witness :
  isAuthenticated
    (store (snd (AuthStore.login credentials
                   (starting [Rejects rejected_401; Fulfils refreshed;
                              Rejects rejected_401]))))
  = false.
Proof.
  refine (proj2 (failed_login_never_authenticates credentials
                   (starting [Rejects rejected_401; Fulfils refreshed;
                              Rejects rejected_401])) _ eq_refl).
  discriminate.
Defined.

Lemma unauthorized_login_refreshes_witness :
  ∃ more,
    wire (snd (AuthStore.login credentials
                 (starting [Rejects rejected_401; Rejects rejected_401])))
    = [] ++ [post "/auth/login"; post "/auth/refresh"] ++ more.
Proof.
  exact (unauthorized_login_refreshes credentials
           (starting [Rejects rejected_401; Rejects rejected_401])
           _ unauthorized _ [Rejects rejected_401] eq_refl eq_refl eq_refl).
Defined.

Lemma register_does_not_sign_in_witness :
  store (snd (AuthStore.register credentials (starting [Fulfils signed])))
  = initial_state.
Proof.
  refine (proj2 (proj2 (register_does_not_sign_in credentials
                          (starting [Fulfils signed])))
            (Fulfils signed) [] eq_refl _).
  intros f [=].
Defined.

Lemma no_token_after_logout_witness :
  request_interceptor (get "/products")
    (snd (logout (signed_in false [Fulfils products])))
  = get "/products".
Proof.
  exact (proj1 (no_token_after_logout (signed_in false [Fulfils products])
                  (get "/products") eq_refl)).
Defined.

Lemma initAuth_first_reply_witness :
  ∃ more,
    wire (snd (initAuth (starting [Rejects rejected_401; Rejects rejected_401])))
    = [] ++ [post "/auth/refresh"; post "/auth/refresh"] ++ more.
Proof.
  exact (proj2 (initAuth_first_reply
                  (starting [Rejects rejected_401; Rejects rejected_401]))
           _ unauthorized _ [Rejects rejected_401] eq_refl eq_refl eq_refl).
Defined.

End ClientScenarios.

Module PageScenarios.
Import Frontend FrontendExample PageExample.
Import LoginPageFacts RegisterPageFacts PaginationFacts.

(** Alice logs in. *)
Lemma login_page_navigates_when_authenticated_witness :
  snd (fst (LoginPage.handleSubmit login_form (starting [Fulfils signed])))
  = [{| to := "/products"; registeredEmail := None |}] ∧
  LoginPage.isLoading
    (snd (fst (fst (LoginPage.handleSubmit login_form
                      (starting [Fulfils signed])))))
  = false.
Proof.
  pose proof (login_page_navigates_when_authenticated login_form
                (starting [Fulfils signed])) as H.
  destruct (LoginPage.handleSubmit _ _) as [[[p s'] navigated] w'] eqn:E.
  destruct H as (_ & Hl & _).
  injection E as <- <- <- <-.
  split; [reflexivity|exact (Hl eq_refl)].
Defined.

(** She mistypes her password and has no refresh cookie. *)
Lemma login_page_wrong_credentials_witness :
  LoginPage.error
    (snd (fst (fst (LoginPage.handleSubmit login_form
                      (starting [Rejects rejected_401; Rejects rejected_401])))))
  = "Invalid email or password".
Proof.
  pose proof (login_page_wrong_credentials login_form
    (starting [Rejects rejected_401; Rejects rejected_401])
    _ unauthorized _ (Some "ERR_BAD_REQUEST") unauthorized
    "Request failed with status code 401" []
    eq_refl eq_refl eq_refl ltac:(discriminate) ltac:(discriminate)
    eq_refl eq_refl) as H.
  destruct (LoginPage.handleSubmit _ _) as [[[p s'] navigated] w'].
  exact (proj1 (proj2 H)).
Defined.

Lemma login_page_server_unreachable_witness :
  LoginPage.error
    (snd (fst (fst (LoginPage.handleSubmit login_form
                      (starting [Rejects unreachable])))))
  = "Cannot connect to server. Please make sure the backend is running.".
Proof.
  pose proof (login_page_server_unreachable login_form
    (starting [Rejects unreachable]) "Network Error" [] eq_refl) as H.
  destruct (LoginPage.handleSubmit _ _) as [[[p s'] navigated] w'].
  exact (proj1 (proj2 H)).
Defined.

(** Five characters are not enough. *)
Lemma register_page_validates_first_witness :
  snd (RegisterPage.handleSubmit (register_form "secre" "secre")
         (starting [Fulfils signed]))
  = starting [Fulfils signed].
Proof.
  pose proof (register_page_validates_first (register_form "secre" "secre")
                (starting [Fulfils signed])) as H.
  destruct (RegisterPage.handleSubmit _ _) as [[[p s'] timers] w'].
  destruct H as (_ & H & _).
  exact (proj1 (H eq_refl ltac:(simpl; lia))).
Defined.

Lemma register_page_success_witness :
  snd (fst (RegisterPage.handleSubmit (register_form "secret1" "secret1")
              (starting [Fulfils signed])))
  = [(2000, {| to := "/login"; registeredEmail := Some "a@b.com" |})].
Proof.
  pose proof (register_page_success (register_form "secret1" "secret1")
    (starting [Fulfils signed]) signed [] eq_refl ltac:(simpl; lia) eq_refl)
    as H.
  destruct (RegisterPage.handleSubmit _ _) as [[[p s'] timers] w'].
  exact (proj1 (proj2 (proj2 (proj2 (proj2 H))))).
Defined.

(** The email is taken: the server answers 409. *)
Lemma register_page_refused_witness :
  RegisterPage.error
    (snd (fst (fst (RegisterPage.handleSubmit (register_form "secret1" "secret1")
                      (starting [Rejects conflict])))))
  = "Email already exists".
Proof.
  pose proof (register_page_refused (register_form "secret1" "secret1")
    (starting [Rejects conflict]) _ _ _ []
    eq_refl ltac:(simpl; lia) eq_refl eq_refl) as H.
  destruct (RegisterPage.handleSubmit _ _) as [[[p s'] timers] w'].
  exact (proj1 (proj2 H)).
Defined.

Lemma bar_iff_more_than_ten_witness :
  ∃ footer,
    DataTable.render (ProductsPage.table_props second_page) no_table
    = DataTable.Rows (Some footer).
Proof.
  refine (proj2 (bar_iff_more_than_ten second_page no_table _ eq_refl) _).
  - discriminate.
  - reflexivity.
Defined.

Lemma row_range_witness :
  DataTable.startRow' (ProductsPage.table_props second_page) no_table = 11 ∧
  DataTable.endRow' (ProductsPage.table_props second_page) no_table = 20 ∧
  (DataTable.endRow' (ProductsPage.table_props second_page) no_table ≤ 25)%Z.
Proof.
  pose proof (row_range second_page no_table eq_refl
                ltac:(split; discriminate)) as H.
  split; [reflexivity|]. split; [reflexivity|].
  exact (proj1 (proj2 H)).
Defined.

Lemma buttons_keep_page_in_range_witness :
  DataTable.press_next (ProductsPage.table_props second_page) no_table
  = Some (DataTable.OnPageChange 3) ∧
  DataTable.press_previous (ProductsPage.table_props second_page) no_table
  = Some (DataTable.OnPageChange 1).
Proof.
  pose proof (buttons_keep_page_in_range second_page no_table
    ltac:(discriminate) eq_refl eq_refl ltac:(split; discriminate)) as H.
  split; [exact (proj1 H)|exact (proj1 (proj2 H))].
Defined.

End PageScenarios.
